(** * clickhouse-backup: the upload-time core, embedded and verified

    The development follows the two source files of the repository:

    - [pkg/backup/backuper.go]: the [Backuper] methods
      [populateBackupShardField], [isDiskTypeObject],
      [isDiskTypeEncryptedObject], [buildEmbeddedLocationS3],
      [getTablesDiffFromLocal] and [getTablesDiffFromRemote];
    - the older upload pathway: [Upload] and [separateParts].

    Go values are embedded shallowly.  A Go [error] is an [option error]
    ([None] is [nil]); a pair [(T, error)] of which the caller reads [T] only
    when the error is nil is an [orError T]; [int64] is [Z] with the wrap-around
    written out; a Go [map] is a [gmap]; a slice that is updated by index is
    a list with stdpp's lookup and [alter].  Calls that leave the two files
    (the Go standard library, the database driver, the storage client, the
    other files of the package) are Section variables: every theorem holds
    for whatever they answer. *)

From Stdlib Require Import ZArith String Ascii List Bool DecimalString.
From stdpp Require Import base option list gmap strings.

Local Open Scope string_scope.
Local Open Scope list_scope.
Local Open Scope Z_scope.

(** ** The Go runtime, as far as the code uses it *)

Module Go.

(** [error]: [filepath.SkipDir] is the one sentinel the code can meet, every
    other error is identified with its message. *)
Inductive error : Type :=
| SkipDir
| Errorf (msg : string).

#[global] Instance error_eq_dec : EqDecision error.
Proof. solve_decision. Defined.

(** [err.Error()], what [%v] prints for an error. *)
Definition Error (e : error) : string :=
  match e with
  | SkipDir => "skip this directory"
  | Errorf msg => msg
  end.

(** A Go pair [(T, error)] whose first component is read only when the
    error is nil. *)
Inductive orError (A : Type) : Type :=
| Ok (a : A)
| Err (e : error).
Arguments Ok {A} a.
Arguments Err {A} e.

(** [int64] arithmetic: the sum is reduced into [-2^63, 2^63). *)
Definition wrap64 (z : Z) : Z := (z + 2 ^ 63) mod 2 ^ 64 - 2 ^ 63.
Definition add64 (a b : Z) : Z := wrap64 (a + b).
Definition int64 (z : Z) : Prop := - 2 ^ 63 <= z < 2 ^ 63.

(** [strings.HasPrefix(s, prefix)] and [strings.TrimPrefix(s, prefix)]. *)
Definition HasPrefix (s pre : string) : bool := String.prefix pre s.

Definition TrimPrefix (s pre : string) : string :=
  if HasPrefix s pre
  then String.substring (String.length pre)
                        (String.length s - String.length pre) s
  else s.

(** [a > b] on strings: bytewise lexicographic order. *)
Definition string_gt (a b : string) : bool :=
  match String.compare a b with Gt => true | _ => false end.

(** The byte 0x22, a double quote. *)
Definition dquote : string :=
  String (Ascii false true false false false true false false) EmptyString.

(** [%d] of [fmt.Sprintf]. *)
Definition itoa (z : Z) : string := NilZero.string_of_int (Z.to_int z).

End Go.
Export Go.

(** ** The file system seen through [filepath.Walk] *)

Module Fs.

(** [os.FileInfo], the three observations the code makes. *)
Record FileInfo : Type := mkFileInfo
  { IsDir : bool; IsRegular : bool; Size : Z }.

(** What [os.Lstat] and [ReadDir] answer below a path.  [NoEnt e]: [Lstat]
    fails with [e].  [File regular size]: anything that is not a directory.
    [Dir size readErr entries]: a directory, the error of reading it (if
    any) and its entries in the lexical order [Walk] visits them. *)
#[warnings="-register-all"] Inductive node : Type :=
| NoEnt (e : string)
| File (regular : bool) (size : Z)
| Dir (size : Z) (readErr : option string) (entries : list (string * node)).

Definition is_dir (n : node) : bool :=
  match n with Dir _ _ _ => true | _ => false end.

Definition lstat_fails (n : node) : bool :=
  match n with NoEnt _ => true | _ => false end.

(** The arguments [info, err] of a [filepath.WalkFunc].  [Walk] calls it
    with a nil error and the entry's info, or with the error of the failed
    [Lstat] (info nil) or of the failed directory read (info of the
    directory). *)
Inductive walkArg : Type :=
| Entry (info : FileInfo)
| EntryErr (info : option FileInfo) (err : error).

Definition WalkFunc (S : Type) : Type :=
  string -> walkArg -> S -> S * option error.

Section Walk.
(** [filepath.Join] of a directory and an entry name. *)
Variable filepath_Join : string -> string -> string.

Context {S : Type}.
Variable walkFn : WalkFunc S.

(** [filepath.walk], together with the [Lstat]-failed branch of its
    callers.  An error returned below a directory entry stops the walk of
    the directory, except [SkipDir] coming from a sub-directory or from
    an entry whose [Lstat] failed. *)
Fixpoint walk (path : string) (n : node) (st : S) {struct n}
  : S * option error :=
  match n with
  | NoEnt e => walkFn path (EntryErr None (Errorf e)) st
  | File regular size =>
      walkFn path (Entry (mkFileInfo false regular size)) st
  | Dir size readErr entries =>
      let info := mkFileInfo true false size in
      let '(st1, err1) :=
        match readErr with
        | Some e => walkFn path (EntryErr (Some info) (Errorf e)) st
        | None => walkFn path (Entry info) st
        end in
      if bool_decide (readErr <> None) || bool_decide (err1 <> None)
      then (st1, err1)
      else
        (fix walkNames (names : list (string * node)) (st : S)
           : S * option error :=
           match names with
           | [] => (st, None)
           | (name, child) :: rest =>
               let '(st', err) := walk (filepath_Join path name) child st in
               match err with
               | None => walkNames rest st'
               | Some e =>
                   if (lstat_fails child || is_dir child)
                      && bool_decide (e = SkipDir)
                   then walkNames rest st'
                   else (st', Some e)
               end
           end) entries st1
  end.

(** [filepath.Walk(root, walkFn)], [root] resolving to [n]. *)
Definition Walk (root : string) (n : node) (st : S) : S * option error :=
  let '(st', err) := walk root n st in
  if bool_decide (err = Some SkipDir) then (st', None) else (st', err).
End Walk.

End Fs.
Export Fs.

(** ** The older upload pathway: [separateParts] *)

Module Legacy.

(** [metadata.Part]. *)
Record Part : Type := mkPart { Name : string }.

(** The three local variables of [separateParts] that the closure passed
    to [filepath.Walk] captures. *)
Record sepState : Type := mkSep
  { size : Z; files : list string; result : list (list string) }.

Section SeparateParts.
(** [path.Join], [filepath.Join] of a directory and an entry name, and what
    the file system holds at a path. *)
Variable path_Join : list string -> string.
Variable filepath_Join : string -> string -> string.
Variable fs : string -> node.

(** The closure [func(filePath string, info os.FileInfo, err error) error]
    of lines 143-159. *)
Definition separateParts_walkFn (basePath : string) (maxSize : Z)
  : WalkFunc sepState :=
  fun filePath arg st =>
    match arg with
    | EntryErr _ err => (st, Some err)
    | Entry info =>
        if negb (IsRegular info) then (st, None)
        else
          let st :=
            if add64 (size st) (Size info) >? maxSize
            then mkSep 0 [] (result st ++ [files st])
            else st in
          let relativePath := TrimPrefix filePath basePath in
          (mkSep (add64 (size st) (Size info))
                 (files st ++ [relativePath])
                 (result st), None)
    end.

(** [for i := range parts]: the value [filepath.Walk] returns is dropped. *)
Definition separateParts_loop (basePath : string) (maxSize : Z)
  (parts : list Part) (st : sepState) : sepState :=
  fold_left
    (fun st part =>
       let partPath := path_Join [basePath; Name part] in
       fst (Walk filepath_Join (separateParts_walkFn basePath maxSize)
                 partPath (fs partPath) st))
    parts st.

Definition separateParts (basePath : string) (parts : list Part) (maxSize : Z)
  : list (list string) * option error :=
  let st := separateParts_loop basePath maxSize parts (mkSep 0 [] []) in
  let result :=
    if (0 <? length (files st))%nat then result st ++ [files st]
    else result st in
  (result, None).

End SeparateParts.

(** *** [Upload]

    [Upload] talks to the database, to the remote storage and to the local
    disk.  Its calls are recorded, in order, as events; what the outside
    answers is fixed by the Section variables below. *)

Inductive event : Type :=
| EvPrintln (line : string)
| EvPrintLocalBackups (format : string)
| EvChConnect
| EvChClose
| EvNewBackupDestination
| EvBdConnect
| EvGetLocalBackup (backupName : string)
| EvLogInfof (msg : string)
| EvGetDefaultPath
| EvGetDisks
| EvStat (name : string)
| EvParseSchemaPattern (metadataPath tablePattern : string)
| EvWalkParts (basePath : string)
| EvCompressedStreamUpload (localPath : string) (files : list string)
                           (remotePath : string)
| EvMarshalIndent
| EvPutFile (remotePath content : string)
| EvReadFile (name : string)
| EvRemoveOldBackups (keep : Z).

(** How a statement ends: it falls through with a value, the function
    returns (the returned [error]), or the goroutine panics. *)
Inductive outcome (A : Type) : Type :=
| Next (a : A)
| Return (err : option error)
| Panic.
Arguments Next {A} a.
Arguments Return {A} err.
Arguments Panic {A}.

Definition M (A : Type) : Type := list event -> outcome A * list event.

#[global] Instance M_ret : MRet M := fun A a tr => (Next a, tr).

#[global] Instance M_bind : MBind M := fun A B f m tr =>
  match m tr with
  | (Next a, tr') => f a tr'
  | (Return err, tr') => (Return err, tr')
  | (Panic, tr') => (Panic, tr')
  end.

Definition emit (ev : event) : M unit := fun tr => (Next tt, tr ++ [ev]).
Definition return_ {A} (err : option error) : M A := fun tr => (Return err, tr).
Definition panic {A} : M A := fun tr => (Panic, tr).

(** [defer f()]: [f] runs when the rest of the function has returned or
    panicked. *)
Definition defer {A} (ev : event) (rest : M A) : M A := fun tr =>
  let '(o, tr') := rest tr in (o, tr' ++ [ev]).

(** [if err != nil { return wrap(err) }]. *)
Definition check (err : option error) (wrap : error -> error) : M unit :=
  match err with
  | Some e => return_ (Some (wrap e))
  | None => mret tt
  end.

(** [x, err := f(); if err != nil { return wrap(err) }]. *)
Definition try {A} (r : orError A) (wrap : error -> error) : M A :=
  match r with
  | Ok a => mret a
  | Err e => return_ (Some (wrap e))
  end.

(** [for _, x := range l { body }] threading the variables [b] the body
    assigns. *)
Fixpoint forM {A B} (l : list A) (body : B -> A -> M B) (b : B) : M B :=
  match l with
  | [] => mret b
  | x :: l' => b' ← body b x; forM l' body b'
  end.

(** [for i, x := range l], the index counted from [i]. *)
Fixpoint forMi {A B} (i : Z) (l : list A) (body : B -> Z -> A -> M B) (b : B)
  : M B :=
  match l with
  | [] => mret b
  | x :: l' => b' ← body b i x; forMi (i + 1) l' body b'
  end.

Record GeneralConfig : Type := mkGeneral
  { RemoteStorage : string; MaxFileSize : Z }.
Record Config : Type := mkConfig { General : GeneralConfig }.

(** [clickhouse.Disk]. *)
Module Disk.
Record t : Type := mk { Name : string; Path : string }.
End Disk.

(** [metadata.TableMetadata], the fields [Upload] reads and writes. *)
Record TableMetadata : Type := mkTableMetadata
  { Table : string;
    Database : string;
    UUID : string;
    Parts : gmap string (list Part);
    Files : gmap string (list string) }.

(** [metadata.TableTitle]. *)
Module TableTitle.
Record t : Type := mk { Database : string; Table : string }.
End TableTitle.

(** [*clickhouse.ClickHouse]: what the server answers. *)
Record ClickHouse : Type := mkClickHouse
  { Connect : option error;
    GetDefaultPath : orError string;
    GetDisks : orError (list Disk.t) }.

(** [*new_storage.BackupDestination]. *)
Record BackupDestination : Type := mkBackupDestination
  { BdConnect : option error;
    Kind : string;
    CompressedStreamUpload : string -> list string -> string -> option error;
    PutFile : string -> string -> option error;
    BackupsToKeep : Z;
    RemoveOldBackups : Z -> option error }.

Section Upload.
Variable path_Join : list string -> string.
Variable filepath_Join : string -> string -> string.
Variable fs : string -> node.
Variable ch : ClickHouse.
Variable NewBackupDestination : Config -> orError BackupDestination.
Variable GetLocalBackup : Config -> string -> option error.
Variable os_Stat : string -> option error.
Variable parseSchemaPattern :
  string -> string -> list TableMetadata * option error.
Variable TablePathEncode : string -> string.
Variable GetArchiveExtension : Config -> string.
Variable json_MarshalIndent : TableMetadata -> orError string.
Variable ioutil_ReadFile : string -> orError string.
(** [ErrUnknownClickhouseDataPath], declared elsewhere in the package. *)
Variable ErrUnknownClickhouseDataPath : error.

(** [diskMap[disk]]: the zero value for a missing key. *)
Definition at_ (m : gmap string string) (k : string) : string :=
  default "" (m !! k).

(** Lines 86-94: one archive per batch. *)
Definition uploadBatches (cfg : Config) (bd : BackupDestination)
  (backupName : string) (table : TableMetadata) (disk backupPath : string)
  (parts : list (list string)) (metdataFiles : gmap string (list string))
  : M (gmap string (list string)) :=
  forMi 0 parts (fun metdataFiles i p =>
    let fileName :=
      disk +:+ "_" +:+ itoa (i + 1) +:+ "." +:+ GetArchiveExtension cfg in
    let metdataFiles :=
      <[disk := default [] (metdataFiles !! disk) ++ [fileName]]>
        metdataFiles in
    let remoteDataFile :=
      path_Join [backupName; "shadow"; TablePathEncode (Database table);
                 TablePathEncode (Table table); fileName] in
    emit (EvCompressedStreamUpload backupPath p remoteDataFile);;
    check (CompressedStreamUpload bd backupPath p remoteDataFile)
          (fun err => Errorf ("can't upload: " +:+ Error err));;
    mret metdataFiles) metdataFiles.

(** Lines 79-95: [for disk := range table.Parts].  Go leaves the order of a
    map range unspecified; the order of [map_to_list] stands for it. *)
Definition uploadDisks (cfg : Config) (bd : BackupDestination)
  (backupName : string) (diskMap : gmap string string)
  (table : TableMetadata) (uuid : string)
  : M (gmap string (list string)) :=
  forM (map_to_list (Parts table)) (fun metdataFiles '(disk, diskParts) =>
    let backupPath :=
      path_Join [at_ diskMap disk; "backup"; backupName; "shadow"; uuid] in
    emit (EvWalkParts backupPath);;
    parts ← try (match separateParts path_Join filepath_Join fs backupPath
                         diskParts (MaxFileSize (General cfg)) with
                 | (parts, None) => Ok parts
                 | (_, Some err) => Err err
                 end) id;
    emit (EvLogInfof
            ("Upload table: " +:+ Database table +:+ "." +:+ Table table
             +:+ ", disk: " +:+ disk
             +:+ ", num files: " +:+ itoa (Z.of_nat (length diskParts))
             +:+ ", num dst files: " +:+ itoa (Z.of_nat (length parts))));;
    uploadBatches cfg bd backupName table disk backupPath parts metdataFiles)
    ∅.

(** Lines 72-109: the body of [for _, table := range tablesForUpload]. *)
Definition uploadTable (cfg : Config) (bd : BackupDestination)
  (backupName : string) (schemaOnly : bool) (diskMap : gmap string string)
  (table : TableMetadata) : M unit :=
  uuid ← (if bool_decide (UUID table <> "")
          then if (String.length (UUID table) <? 3)%nat then panic
               else mret (path_Join [String.substring 0 3 (UUID table);
                                     UUID table])
          else mret (path_Join [TablePathEncode (Database table);
                                TablePathEncode (Table table)]));
  metdataFiles ← (if negb schemaOnly
                  then uploadDisks cfg bd backupName diskMap table uuid
                  else mret ∅);
  let tableMetafile :=
    mkTableMetadata (Table table) (Database table) (UUID table)
                    (Parts table) metdataFiles in
  emit EvMarshalIndent;;
  content ← try (json_MarshalIndent tableMetafile)
                (fun err => Errorf ("can't marshal json: " +:+ Error err));
  let remoteTableMetaFile :=
    path_Join [backupName; "metadata"; TablePathEncode (Database table);
               TablePathEncode (Table table) +:+ "." +:+ "json"] in
  emit (EvPutFile remoteTableMetaFile content);;
  check (PutFile bd remoteTableMetaFile content)
        (fun err => Errorf ("can't upload: " +:+ Error err)).

(** Lines 33-134, after the three guards. *)
Definition Upload_connected (cfg : Config) (backupName tablePattern : string)
  (schemaOnly : bool) : M unit :=
  emit EvNewBackupDestination;;
  bd ← try (NewBackupDestination cfg) id;
  emit EvBdConnect;;
  check (BdConnect bd)
        (fun err => Errorf ("can't connect to " +:+ Kind bd +:+ ": "
                            +:+ Error err));;
  emit (EvGetLocalBackup backupName);;
  check (GetLocalBackup cfg backupName)
        (fun err => Errorf ("can't upload: " +:+ Error err));;
  emit (EvLogInfof ("Upload backup '" +:+ backupName +:+ "'"));;
  emit EvGetDefaultPath;;
  defaulDataPath ← try (GetDefaultPath ch)
                       (fun _ => ErrUnknownClickhouseDataPath);
  emit EvGetDisks;;
  disks ← try (GetDisks ch) id;
  let diskMap : gmap string string :=
    fold_left (fun diskMap disk => <[Disk.Name disk := Disk.Path disk]> diskMap)
              disks ∅ in
  let metadataPath := path_Join [defaulDataPath; "backup"; backupName;
                                 "metadata"] in
  emit (EvStat metadataPath);;
  check (os_Stat metadataPath) id;;
  emit (EvParseSchemaPattern metadataPath tablePattern);;
  let '(tablesForUpload, _) := parseSchemaPattern metadataPath tablePattern in
  forM tablesForUpload
       (fun _ table => uploadTable cfg bd backupName schemaOnly diskMap table)
       tt;;
  let t := fold_left
             (fun t table =>
                t ++ [TableTitle.mk (Database table) (Table table)])
             tablesForUpload [] in
  let backupMetadataPath := path_Join [defaulDataPath; "backup"; backupName;
                                       "metadata.json"] in
  emit (EvReadFile backupMetadataPath);;
  backupMetadataBody ← try (ioutil_ReadFile backupMetadataPath) id;
  let remoteBackupMetaFile := path_Join [backupName; "metadata.json"] in
  emit (EvPutFile remoteBackupMetaFile backupMetadataBody);;
  check (PutFile bd remoteBackupMetaFile backupMetadataBody)
        (fun err => Errorf ("can't upload: " +:+ Error err));;
  emit (EvRemoveOldBackups (BackupsToKeep bd));;
  check (RemoveOldBackups bd (BackupsToKeep bd))
        (fun err => Errorf ("can't remove old backups: " +:+ Error err));;
  emit (EvLogInfof "  Done.");;
  return_ None.

Definition Upload (cfg : Config) (backupName tablePattern diffFrom : string)
  (schemaOnly : bool) : M unit :=
  if bool_decide (RemoteStorage (General cfg) = "none")
  then
    emit (EvPrintln ("Upload aborted: RemoteStorage set to " +:+ dquote
                     +:+ "none" +:+ dquote));;
    return_ None
  else if bool_decide (backupName = "")
  then
    emit (EvPrintLocalBackups "all");;
    return_ (Some (Errorf "select backup for upload"))
  else if bool_decide (diffFrom <> "")
  then return_ (Some (Errorf "diff-from is not supported yet"))
  else
    emit EvChConnect;;
    check (Connect ch)
          (fun err => Errorf ("can't connect to clickhouse: " +:+ Error err));;
    defer EvChClose (Upload_connected cfg backupName tablePattern schemaOnly).

End Upload.

End Legacy.

(** ** [pkg/backup/backuper.go] *)

Module Backuper.

(** *** The structs of the other packages, as far as the code reads them *)

(** [clickhouse.Table]: [BackupType] is the field the sharding writes. *)
Inductive ShardBackupType : Type :=
| ShardBackupFull
| ShardBackupNone
| ShardBackupSchema.

#[global] Instance ShardBackupType_eq_dec : EqDecision ShardBackupType.
Proof. solve_decision. Defined.

Module Table.
Record t : Type := mk
  { Database : string; Name : string; Skip : bool;
    BackupType : ShardBackupType }.

Definition setBackupType (bt : ShardBackupType) (tbl : t) : t :=
  mk (Database tbl) (Name tbl) (Skip tbl) bt.
End Table.

(** [clickhouse.Disk]. *)
Module Disk.
Record t : Type := mk
  { Name : string; Path : string; Type_ : string; IsBackup : bool }.
End Disk.

(** [config.S3Config] and [config.Config]. *)
Module S3Config.
Record t : Type := mk
  { Endpoint : string; Bucket : string; ObjectDiskPath : string;
    Region : string; DisableSSL : bool; ForcePathStyle : bool }.
End S3Config.

Module Config.
Record t : Type := mk
  { ShardedOperationMode : string;   (* cfg.General.ShardedOperationMode *)
    RemoteStorage : string;          (* cfg.General.RemoteStorage *)
    S3 : S3Config.t }.
End Config.

(** [net/url.URL]. *)
Module URL.
Record t : Type := mk
  { Scheme : string; Opaque : string; Host : string; Path : string;
    RawPath : string; RawQuery : string; Fragment : string }.

(** [url.URL{}]. *)
Definition zero : t := mk "" "" "" "" "" "" "".
Definition setScheme (v : string) (u : t) : t :=
  mk v (Opaque u) (Host u) (Path u) (RawPath u) (RawQuery u) (Fragment u).
Definition setHost (v : string) (u : t) : t :=
  mk (Scheme u) (Opaque u) v (Path u) (RawPath u) (RawQuery u) (Fragment u).
Definition setPath (v : string) (u : t) : t :=
  mk (Scheme u) (Opaque u) (Host u) v (RawPath u) (RawQuery u) (Fragment u).
End URL.

(** [metadata.TableTitle], the key of the diff map. *)
Module TableTitle.
Record t : Type := mk { Database : string; Table : string }.

#[global] Instance eq_dec : EqDecision t.
Proof. solve_decision. Defined.

#[global] Instance countable : Countable t :=
  inj_countable' (fun k => (Database k, Table k))
                 (fun p => mk p.1 p.2)
                 (fun k => match k with mk _ _ => eq_refl end).
End TableTitle.

(** [metadata.TableMetadata]; [Payload] stands for the remaining fields. *)
Module TableMetadata.
Record t : Type := mk { Database : string; Table : string; Payload : string }.
End TableMetadata.

(** [metadata.BackupMetadata]. *)
Module BackupMetadata.
Record t : Type := mk { BackupName : string; Tables : list TableTitle.t }.
End BackupMetadata.

(** [storage.Backup] embeds [metadata.BackupMetadata]. *)
Module Backup.
Record t : Type := mk { BackupMetadata : BackupMetadata.t; Broken : string }.
Definition BackupName (bk : t) : string :=
  BackupMetadata.BackupName (BackupMetadata bk).
End Backup.

(** [*storage.BackupDestination]: [BackupList(ctx, parseMetadata, name)]. *)
Module BackupDestination.
Record t : Type := mk
  { BackupList : bool -> string -> orError (list Backup.t) }.
End BackupDestination.

(** The interface [versioner]. *)
Record versioner : Type := mkVersioner
  { CanShardOperation : option error }.

(** [shardDetermination] with its method [inShard(database, table)], and the
    interface [backupSharder], both of the package's sharding file. *)
Record shardDetermination : Type := mkShardDetermination
  { inShard : string -> string -> orError bool }.

Record backupSharder : Type := mkBackupSharder
  { determineShards : orError shardDetermination }.

Record Backuper : Type := mkBackuper
  { cfg : Config.t;
    vers : versioner;
    bs : option backupSharder;
    dst : BackupDestination.t;
    DefaultDataPath : string }.

Definition setBs (s : backupSharder) (b : Backuper) : Backuper :=
  mkBackuper (cfg b) (vers b) (Some s) (dst b) (DefaultDataPath b).

Abbreviation DiffMap := (gmap TableTitle.t TableMetadata.t).

(** *** [populateBackupShardField] *)

Section Shard.
(** [doesShard], [shardFuncByName] and [newReplicaDeterminer] (applied to
    [b.ch]) of the package's sharding file. *)
Variable shardFunc : Type.
Variable doesShard : string -> bool.
Variable shardFuncByName : string -> orError shardFunc.
Variable newReplicaDeterminer : shardFunc -> backupSharder.

(** Lines 123-128, [for i := range tables], over the indices [idx]. *)
Fixpoint defaultLoop (idx : list nat) (tables : list Table.t) : list Table.t :=
  match idx with
  | [] => tables
  | i :: idx' =>
      let tables := alter (Table.setBackupType ShardBackupFull) i tables in
      let tables :=
        match tables !! i with
        | Some tbl =>
            if Table.Skip tbl
            then alter (Table.setBackupType ShardBackupNone) i tables
            else tables
        | None => tables
        end in
      defaultLoop idx' tables
  end.

(** Lines 148-159, [for i, t := range tables], over the indices [idx]. *)
Fixpoint shardLoop (assignment : shardDetermination) (idx : list nat)
  (tables : list Table.t) : list Table.t * option error :=
  match idx with
  | [] => (tables, None)
  | i :: idx' =>
      match tables !! i with
      | None => shardLoop assignment idx' tables
      | Some tbl =>
          if Table.Skip tbl then shardLoop assignment idx' tables
          else
            match inShard assignment (Table.Database tbl) (Table.Name tbl) with
            | Err err => (tables, Some err)
            | Ok fullBackup =>
                let tables :=
                  if negb fullBackup
                  then alter (Table.setBackupType ShardBackupSchema) i tables
                  else tables in
                shardLoop assignment idx' tables
            end
      end
  end.

(** The method returns its error; the receiver and the slice it writes to
    are returned with it. *)
Definition populateBackupShardField (b : Backuper) (tables : list Table.t)
  : Backuper * list Table.t * option error :=
  let tables := defaultLoop (seq 0 (length tables)) tables in
  if negb (doesShard (Config.ShardedOperationMode (cfg b)))
  then (b, tables, None)
  else
    match CanShardOperation (vers b) with
    | Some err => (b, tables, Some err)
    | None =>
        let sharder : orError (Backuper * backupSharder) :=
          match bs b with
          | Some s => Ok (b, s)
          | None =>
              match shardFuncByName (Config.ShardedOperationMode (cfg b)) with
              | Err err =>
                  Err (Errorf ("could not determine shards for tables: "
                               +:+ Error err))
              | Ok f =>
                  let s := newReplicaDeterminer f in Ok (setBs s b, s)
              end
          end in
        match sharder with
        | Err err => (b, tables, Some err)
        | Ok (b, s) =>
            match determineShards s with
            | Err err => (b, tables, Some err)
            | Ok assignment =>
                let '(tables, err) :=
                  shardLoop assignment (seq 0 (length tables)) tables in
                (b, tables, err)
            end
        end
    end.
End Shard.

(** *** [isDiskTypeObject], [isDiskTypeEncryptedObject] *)

Definition isDiskTypeObject (diskType : string) : bool :=
  bool_decide (diskType = "s3")
  || bool_decide (diskType = "azure_blob_storage")
  || bool_decide (diskType = "azure").

(** Lines 173-180, [for i, d := range disks], the index counted from [i];
    the state is [(underlyingIdx, underlyingPath)]. *)
Fixpoint underlyingLoop (disk : Disk.t) (i : Z) (disks : list Disk.t)
  (st : Z * string) : Z * string :=
  match disks with
  | [] => st
  | d :: rest =>
      let '(underlyingIdx, underlyingPath) := st in
      let st :=
        if bool_decide (Disk.Name d <> Disk.Name disk)
           && HasPrefix (Disk.Path disk) (Disk.Path d)
           && isDiskTypeObject (Disk.Type_ d)
        then
          if string_gt (Disk.Path d) underlyingPath
          then (i, Disk.Path d)
          else st
        else st in
      underlyingLoop disk (i + 1) rest st
  end.

Definition isDiskTypeEncryptedObject (disk : Disk.t) (disks : list Disk.t)
  : bool :=
  if bool_decide (Disk.Type_ disk <> "encrypted") then false
  else
    let '(underlyingIdx, _) := underlyingLoop disk 0 disks (-1, "") in
    underlyingIdx >=? 0.

(** *** [buildEmbeddedLocationS3] *)

Section Location.
(** [path.Join], and the methods [Parse] and [String] of [net/url.URL].
    Inside the function the local variable [url] shadows the package, so
    [url.Parse(s)] is the method: it resolves [s] against the receiver and
    answers a nil pointer with its error. *)
Variable path_Join : list string -> string.
Variable URL_Parse : URL.t -> string -> option URL.t.
Variable URL_String : URL.t -> string.

(** The local [url] when the function reaches [return url.String()];
    [None] when [*newUrl] dereferences the nil pointer of a failed parse. *)
Definition buildEmbeddedLocationS3_url (b : Backuper) : option URL.t :=
  let s3 := Config.S3 (cfg b) in
  let url := URL.setScheme "https" URL.zero in
  url ← (if HasPrefix (S3Config.Endpoint s3) "http"
         then
           newUrl ← URL_Parse url (S3Config.Endpoint s3);
           Some (URL.setPath
                   (path_Join [S3Config.Bucket s3; S3Config.ObjectDiskPath s3])
                   newUrl)
         else
           Some (URL.setPath
                   (path_Join [S3Config.Bucket s3; S3Config.ObjectDiskPath s3])
                   (URL.setHost (S3Config.Endpoint s3) url)));
  let url :=
    if S3Config.DisableSSL s3 then URL.setScheme "http" url else url in
  let url :=
    if bool_decide (URL.Host url = "")
       && bool_decide (S3Config.Region s3 <> "")
       && S3Config.ForcePathStyle s3
    then
      URL.setPath (path_Join [S3Config.Bucket s3; S3Config.ObjectDiskPath s3])
        (URL.setHost ("s3." +:+ S3Config.Region s3 +:+ ".amazonaws.com") url)
    else url in
  let url :=
    if bool_decide (URL.Host url = "")
       && bool_decide (S3Config.Bucket s3 <> "")
       && negb (S3Config.ForcePathStyle s3)
    then
      URL.setPath (S3Config.ObjectDiskPath s3)
        (URL.setHost (S3Config.Bucket s3 +:+ "." +:+ "s3."
                      +:+ S3Config.Region s3 +:+ ".amazonaws.com") url)
    else url in
  Some url.

Definition buildEmbeddedLocationS3 (b : Backuper) : option string :=
  URL_String <$> buildEmbeddedLocationS3_url b.
End Location.

(** *** [getTablesDiffFromLocal], [getTablesDiffFromRemote] *)

Section Diff.
(** [path.Join], and the methods and functions of the package's other
    files: [b.ReadBackupMetadataLocal(ctx, backupName)],
    [b.getTableListByPatternLocal(ctx, metadataPath, tablePattern,
    dropTable, partitions)] (its second result is dropped by the caller)
    and [getTableListByPatternRemote(ctx, b, remoteBackupMetadata,
    tablePattern, dropTable)]. *)
Variable path_Join : list string -> string.
Variable ReadBackupMetadataLocal :
  Backuper -> string -> orError BackupMetadata.t.
Variable getTableListByPatternLocal :
  Backuper -> string -> string -> bool -> list string ->
  orError (list TableMetadata.t).
Variable getTableListByPatternRemote :
  Backuper -> BackupMetadata.t -> string -> bool ->
  orError (list TableMetadata.t).

(** [for _, t := range l { tablesForUploadFromDiff[TableTitle{...}] = t }]. *)
Definition fillDiff (l : list TableMetadata.t) (m : DiffMap) : DiffMap :=
  fold_left
    (fun m t =>
       <[TableTitle.mk (TableMetadata.Database t) (TableMetadata.Table t)
         := t]> m)
    l m.

(** The results are the map ([None] is the nil map) and the error. *)
Definition getTablesDiffFromLocal (b : Backuper)
  (diffFrom tablePattern : string) : option DiffMap * option error :=
  let tablesForUploadFromDiff : DiffMap := ∅ in
  match ReadBackupMetadataLocal b diffFrom with
  | Err err => (None, Some err)
  | Ok diffFromBackup =>
      if bool_decide (length (BackupMetadata.Tables diffFromBackup) <> 0%nat)
      then
        let metadataPath :=
          path_Join [DefaultDataPath b; "backup"; diffFrom; "metadata"] in
        match getTableListByPatternLocal b metadataPath tablePattern false []
        with
        | Err err => (None, Some err)
        | Ok diffTablesList =>
            (Some (fillDiff diffTablesList tablesForUploadFromDiff), None)
        end
      else (Some tablesForUploadFromDiff, None)
  end.

(** Lines 340-345: the first backup of the list that bears the name. *)
Fixpoint findBackup (diffFromRemote : string) (backupList : list Backup.t)
  : option BackupMetadata.t :=
  match backupList with
  | [] => None
  | backup :: rest =>
      if bool_decide (Backup.BackupName backup = diffFromRemote)
      then Some (Backup.BackupMetadata backup)
      else findBackup diffFromRemote rest
  end.

Definition getTablesDiffFromRemote (b : Backuper)
  (diffFromRemote tablePattern : string) : option DiffMap * option error :=
  let tablesForUploadFromDiff : DiffMap := ∅ in
  match BackupDestination.BackupList (dst b) true diffFromRemote with
  | Err err => (None, Some err)
  | Ok backupList =>
      match findBackup diffFromRemote backupList with
      | None =>
          (None,
           Some (Errorf (diffFromRemote +:+ " not found on remote storage")))
      | Some diffRemoteMetadata =>
          if bool_decide
               (length (BackupMetadata.Tables diffRemoteMetadata) <> 0%nat)
          then
            match getTableListByPatternRemote b diffRemoteMetadata
                    tablePattern false with
            | Err err => (None, Some err)
            | Ok diffTablesList =>
                (Some (fillDiff diffTablesList tablesForUploadFromDiff), None)
            end
          else (Some tablesForUploadFromDiff, None)
      end
  end.
End Diff.

End Backuper.

(** ** Vocabulary of the statements *)

(** *** Batching *)

Module Batching.
Import Legacy.

Section Walked.
Variable path_Join : list string -> string.
Variable filepath_Join : string -> string -> string.
Variable fs : string -> node.

(** The regular files, with their sizes, that a walk stopping at the first
    failed read reaches below [path], in the order of the walk, and the
    error that stopped it. *)
Fixpoint reached (path : string) (n : node) {struct n}
  : list (string * Z) * option error :=
  match n with
  | NoEnt e => ([], Some (Errorf e))
  | File regular size => (if regular then [(path, size)] else [], None)
  | Dir _ (Some e) _ => ([], Some (Errorf e))
  | Dir _ None entries =>
      (fix reachedNames (names : list (string * node))
         : list (string * Z) * option error :=
         match names with
         | [] => ([], None)
         | (name, child) :: rest =>
             let '(l, err) := reached (filepath_Join path name) child in
             match err with
             | Some e => (l, Some e)
             | None => let '(l', err') := reachedNames rest in (l ++ l', err')
             end
         end) entries
  end.

(** No read fails below [n]. *)
Fixpoint readable (n : node) : bool :=
  match n with
  | NoEnt _ => false
  | File _ _ => true
  | Dir _ (Some _) _ => false
  | Dir _ None entries => forallb (fun entry => readable entry.2) entries
  end.

(** Every regular file below [path], in the order of the walk. *)
Fixpoint regularFiles (path : string) (n : node) : list (string * Z) :=
  match n with
  | NoEnt _ => []
  | File regular size => if regular then [(path, size)] else []
  | Dir _ _ entries =>
      flat_map (fun entry =>
                  regularFiles (filepath_Join path entry.1) entry.2) entries
  end.

(** The walked file list of [separateParts basePath parts]. *)
Definition walkedFiles (basePath : string) (parts : list Part)
  : list (string * Z) :=
  concat (map (fun part =>
                 let partPath := path_Join [basePath; Name part] in
                 (reached partPath (fs partPath)).1) parts).

(** Some read fails during the walk of [parts]. *)
Definition readFails (basePath : string) (parts : list Part) : Prop :=
  Exists (fun part =>
            let partPath := path_Join [basePath; Name part] in
            (reached partPath (fs partPath)).2 <> None) parts.
End Walked.

(** What the closure of [separateParts] does with one regular file. *)
Definition addFile (basePath : string) (maxSize : Z) (st : sepState)
  (f : string * Z) : sepState :=
  (separateParts_walkFn basePath maxSize f.1
     (Entry (mkFileInfo false true f.2)) st).1.

(** The name a walked file has in a batch, and the cumulative size of a
    group of files. *)
Definition relative (basePath : string) (f : string * Z) : string :=
  TrimPrefix f.1 basePath.

Definition cumulative (g : list (string * Z)) : Z :=
  fold_right Z.add 0 (map snd g).


(** A batch as the specification wants it: within the limit, or one single
    file that alone is larger than the limit. *)
Definition within (maxSize : Z) (g : list (string * Z)) : Prop :=
  cumulative g <= maxSize \/ exists f, g = [f] /\ maxSize < f.2.

(** A batch as the code makes it: the batch closed in front of a first file
    that is larger than the limit is empty. *)
Definition within_or_empty (maxSize : Z) (g : list (string * Z)) : Prop :=
  within maxSize g \/ g = [].

(** File lengths are not negative, and together they fit [int64]. *)
Definition fits (l : list (string * Z)) : Prop :=
  Forall (fun f => 0 <= f.2) l /\ cumulative l < 2 ^ 63.

(** [groups] splits the walked files into the batches that [separateParts]
    returns. *)
Definition splits (path_Join : list string -> string)
  (filepath_Join : string -> string -> string) (fs : string -> node)
  (basePath : string) (parts : list Part) (maxSize : Z)
  (groups : list (list (string * Z))) : Prop :=
  concat groups = walkedFiles path_Join filepath_Join fs basePath parts
  /\ (separateParts path_Join filepath_Join fs basePath parts maxSize).1
     = map (map (relative basePath)) groups.

(** Concrete surroundings for the examples: joining with a slash, which is
    what [path.Join] and [filepath.Join] do on clean elements. *)
Definition join_slash (elem : list string) : string := String.concat "/" elem.
Definition join2_slash (dir name : string) : string := dir +:+ "/" +:+ name.


(** A part directory [/b/p] with the files [a] (6 bytes), [c] (7 bytes) and
    [d] (30 bytes) and an empty sub-directory. *)
Definition fs_three_files (path : string) : node :=
  if bool_decide (path = "/b/p")
  then Dir 4096 None [("a", File true 6); ("c", File true 7);
                      ("d", File true 30); ("sub", Dir 4096 None [])]
  else NoEnt "no such file or directory".

(** A part directory [/b/p] with two sparse files of 2^62 bytes each. *)
Definition fs_two_huge (path : string) : node :=
  if bool_decide (path = "/b/p")
  then Dir 4096 None [("a", File true (2 ^ 62)); ("c", File true (2 ^ 62))]
  else NoEnt "no such file or directory".

(** Nothing exists: every [Lstat] fails. *)
Definition fs_missing (path : string) : node :=
  NoEnt "no such file or directory".

End Batching.

(** *** The older [Upload] *)

Module Uploading.
Import Legacy.




Definition bd_ok : BackupDestination :=
  mkBackupDestination None "s3" (fun _ _ _ => None) (fun _ _ => None) 0
                      (fun _ => None).


End Uploading.

(** *** Sharding *)

Module Sharding.
Import Backuper.

(** The default of lines 123-128. *)
Definition defaultType (tbl : Table.t) : ShardBackupType :=
  if Table.Skip tbl then ShardBackupNone else ShardBackupFull.

Definition defaults (tables : list Table.t) : list Table.t :=
  map (fun tbl => Table.setBackupType (defaultType tbl) tbl) tables.

(** The second loop, table by table: a skipped table is left alone, a
    failed lookup stops the loop, a table outside this replica's shard
    becomes schema-only. *)
Fixpoint shardList (assignment : shardDetermination) (tables : list Table.t)
  : list Table.t * option error :=
  match tables with
  | [] => ([], None)
  | tbl :: rest =>
      if Table.Skip tbl
      then let '(rest', err) := shardList assignment rest in (tbl :: rest', err)
      else
        match inShard assignment (Table.Database tbl) (Table.Name tbl) with
        | Err err => (tbl :: rest, Some err)
        | Ok fullBackup =>
            let '(rest', err) := shardList assignment rest in
            ((if negb fullBackup
              then Table.setBackupType ShardBackupSchema tbl else tbl) :: rest',
             err)
        end
  end.

(** [tbl'] is [tbl] with its [BackupType] overwritten: by the default, or,
    for a table that is not skipped, by schema-only. *)
Definition overwritten (tbl tbl' : Table.t) : Prop :=
  tbl' = Table.setBackupType (defaultType tbl) tbl
  \/ (Table.Skip tbl = false
      /\ tbl' = Table.setBackupType ShardBackupSchema tbl).

(** Concrete surroundings for the examples.  The policy names are those of
    the configuration; the assignment keeps [db.kept] on this replica,
    gives [db.moved] to another one and does not know any other table. *)
Definition doesShard_ex (mode : string) : bool :=
  negb (bool_decide (mode = "none") || bool_decide (mode = "")).

Definition assignment_ex : shardDetermination :=
  mkShardDetermination (fun database table =>
    if bool_decide (table = "kept") then Ok true
    else if bool_decide (table = "moved") then Ok false
    else Err (Errorf "table not found in shard assignment")).

Definition backuper_ex (mode : string) (capability : option error) : Backuper :=
  mkBackuper
    (Config.mk mode "s3" (S3Config.mk "" "mybucket" "backups" "us-east-1"
                                       false false))
    (mkVersioner capability)
    (Some (mkBackupSharder (Ok assignment_ex)))
    (BackupDestination.mk (fun _ _ => Ok []))
    "/var/lib/clickhouse".

Definition populate_ex (mode : string) (capability : option error)
  (tables : list Table.t) : Backuper * list Table.t * option error :=
  populateBackupShardField unit doesShard_ex
    (fun _ => Err (Errorf "unknown policy"))
    (fun _ => mkBackupSharder (Ok assignment_ex))
    (backuper_ex mode capability) tables.

Definition tables_ex : list Table.t :=
  [Table.mk "db" "moved" false ShardBackupFull;
   Table.mk "db" "hidden" true ShardBackupSchema;
   Table.mk "db" "unknown" false ShardBackupNone;
   Table.mk "db" "kept" false ShardBackupSchema].

End Sharding.

(** *** Disk classification *)

Module Classifier.
Import Backuper.

(** [d] is an object disk, other than [disk] by its name, whose path is a
    prefix of the path of [disk]. *)
Definition underlies (disk d : Disk.t) : Prop :=
  Disk.Name d <> Disk.Name disk
  /\ String.prefix (Disk.Path d) (Disk.Path disk) = true
  /\ (Disk.Type_ d = "s3" \/ Disk.Type_ d = "azure_blob_storage"
      \/ Disk.Type_ d = "azure").

(** An encrypted disk, and an object disk registered with an empty path. *)
Definition disk_encrypted : Disk.t :=
  Disk.mk "encrypted_s3" "/var/lib/clickhouse/disks/s3/encrypted/" "encrypted"
          false.
Definition disk_s3 : Disk.t :=
  Disk.mk "disk_s3" "/var/lib/clickhouse/disks/s3/" "s3" false.
Definition disk_default : Disk.t :=
  Disk.mk "default" "/var/lib/clickhouse/" "local" false.

End Classifier.

(** *** Destination locating and diff resolving *)

Module Locating.
Import Backuper.

(** Concrete surroundings for the examples: a rendering of a URL that has a
    scheme, a host and a relative path, and a parser that always fails. *)
Definition render (u : URL.t) : string :=
  URL.Scheme u +:+ "://" +:+ URL.Host u +:+ "/" +:+ URL.Path u.

Definition never_parses (base : URL.t) (ref : string) : option URL.t := None.

End Locating.

Module Diffing.
Import Backuper.

(** Concrete surroundings for the examples: the backup [weekly] exists
    locally and remotely and lists no table; [daily] exists remotely with
    one table; nothing else exists. *)
Definition weekly : BackupMetadata.t := BackupMetadata.mk "weekly" [].
Definition daily : BackupMetadata.t :=
  BackupMetadata.mk "daily" [TableTitle.mk "db" "events"].

Definition dst_ex : BackupDestination.t :=
  BackupDestination.mk
    (fun _ _ => Ok [Backup.mk daily ""; Backup.mk weekly ""]).

Definition backuper_ex : Backuper :=
  mkBackuper
    (Config.mk "none" "s3" (S3Config.mk "" "mybucket" "backups" "us-east-1"
                                         false false))
    (mkVersioner None) None dst_ex "/var/lib/clickhouse".

Definition readLocal_ex (b : Backuper) (backupName : string)
  : orError BackupMetadata.t :=
  if bool_decide (backupName = "weekly") then Ok weekly
  else Err (Errorf ("'" +:+ backupName +:+ "' is not found on local storage")).

Definition listLocal_ex (b : Backuper) (metadataPath tablePattern : string)
  (dropTable : bool) (partitions : list string)
  : orError (list TableMetadata.t) :=
  Ok [TableMetadata.mk "db" "events" "CREATE TABLE db.events"].

Definition listRemote_ex (b : Backuper) (m : BackupMetadata.t)
  (tablePattern : string) (dropTable : bool)
  : orError (list TableMetadata.t) :=
  Ok (map (fun title =>
             TableMetadata.mk (TableTitle.Database title)
                              (TableTitle.Table title) "")
          (BackupMetadata.Tables m)).

Definition fromLocal_ex (diffFrom : string) : option DiffMap * option error :=
  getTablesDiffFromLocal Batching.join_slash readLocal_ex listLocal_ex
                         backuper_ex diffFrom "*".

Definition fromRemote_ex (diffFromRemote : string)
  : option DiffMap * option error :=
  getTablesDiffFromRemote listRemote_ex backuper_ex diffFromRemote "*".

End Diffing.

(** *** Sharding, continued *)

Module ShardingMore.
Import Backuper Sharding.

(** The sharder the method works with and the receiver that keeps it:
    [b.bs] when it is set, else the determiner made for the configured
    policy and stored in [b.bs] (lines 136-143). *)
Definition sharderOf {shardFunc : Type}
  (shardFuncByName : string -> orError shardFunc)
  (newReplicaDeterminer : shardFunc -> backupSharder) (b : Backuper)
  : orError (Backuper * backupSharder) :=
  match bs b with
  | Some s => Ok (b, s)
  | None =>
      match shardFuncByName (Config.ShardedOperationMode (cfg b)) with
      | Err err =>
          Err (Errorf ("could not determine shards for tables: "
                       +:+ Error err))
      | Ok f => let s := newReplicaDeterminer f in Ok (setBs s b, s)
      end
  end.

(** [tbl'] is [tbl] after a successful sharded run under [assignment]:
    [None] when skipped, else [Full] or schema-only as the lookup says. *)
Definition assigned (assignment : shardDetermination) (tbl tbl' : Table.t)
  : Prop :=
  if Table.Skip tbl
  then tbl' = Table.setBackupType ShardBackupNone tbl
  else exists fullBackup,
         inShard assignment (Table.Database tbl) (Table.Name tbl)
         = Ok fullBackup
         /\ tbl' = Table.setBackupType
                     (if fullBackup then ShardBackupFull
                      else ShardBackupSchema) tbl.

(** [tbl'] is [tbl] but for its [BackupType], which agrees with [Skip]. *)
Definition retyped (tbl tbl' : Table.t) : Prop :=
  Table.Database tbl' = Table.Database tbl
  /\ Table.Name tbl' = Table.Name tbl
  /\ Table.Skip tbl' = Table.Skip tbl
  /\ (Table.BackupType tbl' = ShardBackupNone <-> Table.Skip tbl = true).

(** Three tables that the assignment of the examples knows or that are
    skipped. *)
Definition tables_known : list Table.t :=
  [Table.mk "db" "moved" false ShardBackupFull;
   Table.mk "db" "hidden" true ShardBackupSchema;
   Table.mk "db" "kept" false ShardBackupSchema].

End ShardingMore.

(** *** Destination locating, continued *)

Module LocatingMore.
Import Backuper.

(** A receiver with the given S3 settings. *)
Definition backuper_s3 (s3 : S3Config.t) : Backuper :=
  mkBackuper (Config.mk "none" "s3" s3) (mkVersioner None) None
             Diffing.dst_ex "/var/lib/clickhouse".

(** A parser that knows one endpoint. *)
Definition parse_minio (base : URL.t) (ref : string) : option URL.t :=
  if bool_decide (ref = "http://minio:9000")
  then Some (URL.mk "http" "" "minio:9000" "" "" "" "")
  else None.

End LocatingMore.

(** *** Diff resolving, continued *)

Module DiffingMore.
Import Backuper.

(** The key under which a table is filed in the diff map. *)
Definition titleOf (t : TableMetadata.t) : TableTitle.t :=
  TableTitle.mk (TableMetadata.Database t) (TableMetadata.Table t).

(** The tables of a list that bear the title [k]. *)
Definition titled (k : TableTitle.t) (l : list TableMetadata.t)
  : list TableMetadata.t :=
  filter (fun t => titleOf t = k) l.

(** Two remote backups under the same name, the older one listing a
    table. *)
Definition weekly_old : BackupMetadata.t :=
  BackupMetadata.mk "weekly" [TableTitle.mk "db" "events"].

Definition twice_weekly : Backuper :=
  mkBackuper
    (Config.mk "none" "s3" (S3Config.mk "" "mybucket" "backups" "us-east-1"
                                         false false))
    (mkVersioner None) None
    (BackupDestination.mk
       (fun _ _ => Ok [Backup.mk Diffing.daily ""; Backup.mk weekly_old "";
                       Backup.mk Diffing.weekly ""]))
    "/var/lib/clickhouse".

(** A listing that answers the same table twice, with different bodies. *)
Definition listRemote_twice (b : Backuper) (m : BackupMetadata.t)
  (tablePattern : string) (dropTable : bool)
  : orError (list TableMetadata.t) :=
  Ok [TableMetadata.mk "db" "events" "first";
      TableMetadata.mk "db" "users" "only";
      TableMetadata.mk "db" "events" "second"].

End DiffingMore.

(** ** [pkg/backup/backuper.go], the remaining methods *)

Module BackuperMore.
Import Backuper.

(** The sections of [config.Config] that the methods below read besides
    those of [Config.t]. *)
Module ClickHouseConfig.
Record t : Type := mk
  { UseEmbeddedBackupRestore : bool; EmbeddedBackupDisk : string }.
End ClickHouseConfig.

Module GCSConfig.
Record t : Type := mk
  { Endpoint : string; Bucket : string; ObjectDiskPath : string;
    ForceHttp : bool; EmbeddedAccessKey : string;
    EmbeddedSecretKey : string }.

Definition setObjectDiskPath (v : string) (c : t) : t :=
  mk (Endpoint c) (Bucket c) v (ForceHttp c) (EmbeddedAccessKey c)
     (EmbeddedSecretKey c).
End GCSConfig.

Module AzureBlobConfig.
Record t : Type := mk
  { EndpointSchema : string; EndpointSuffix : string; AccountName : string;
    AccountKey : string; Container : string; ObjectDiskPath : string }.

Definition setObjectDiskPath (v : string) (c : t) : t :=
  mk (EndpointSchema c) (EndpointSuffix c) (AccountName c) (AccountKey c)
     (Container c) v.
End AzureBlobConfig.

(** The receiver of the methods below: the [Backuper] of the first part
    and, of [b.cfg], the ClickHouse section, the S3 keys and the GCS and
    Azure sections. *)
Module Receiver.
Record t : Type := mk
  { core : Backuper;
    ClickHouse : ClickHouseConfig.t;
    S3AccessKey : string;
    S3SecretKey : string;
    GCS : GCSConfig.t;
    AzureBlob : AzureBlobConfig.t }.

Definition RemoteStorage (r : t) : string := Config.RemoteStorage (cfg (core r)).
Definition S3 (r : t) : S3Config.t := Config.S3 (cfg (core r)).

(** [b.cfg.S3.ObjectDiskPath = v]. *)
Definition setS3ObjectDiskPath (v : string) (r : t) : t :=
  let b := core r in
  let s3 := Config.S3 (cfg b) in
  mk (mkBackuper
        (Config.mk (Config.ShardedOperationMode (cfg b))
                   (Config.RemoteStorage (cfg b))
                   (S3Config.mk (S3Config.Endpoint s3) (S3Config.Bucket s3) v
                                (S3Config.Region s3) (S3Config.DisableSSL s3)
                                (S3Config.ForcePathStyle s3)))
        (vers b) (bs b) (dst b) (DefaultDataPath b))
     (ClickHouse r) (S3AccessKey r) (S3SecretKey r) (GCS r) (AzureBlob r).

Definition setGCS (v : GCSConfig.t) (r : t) : t :=
  mk (core r) (ClickHouse r) (S3AccessKey r) (S3SecretKey r) v (AzureBlob r).

Definition setAzureBlob (v : AzureBlobConfig.t) (r : t) : t :=
  mk (core r) (ClickHouse r) (S3AccessKey r) (S3SecretKey r) (GCS r) v.
End Receiver.

(** *** [getObjectDiskPath], [applyMacrosToObjectDiskPath] *)

Definition getObjectDiskPath (r : Receiver.t) : orError string :=
  if bool_decide (Receiver.RemoteStorage r = "s3")
  then Ok (S3Config.ObjectDiskPath (Receiver.S3 r))
  else if bool_decide (Receiver.RemoteStorage r = "azblob")
  then Ok (AzureBlobConfig.ObjectDiskPath (Receiver.AzureBlob r))
  else if bool_decide (Receiver.RemoteStorage r = "gcs")
  then Ok (GCSConfig.ObjectDiskPath (Receiver.GCS r))
  else Err (Errorf ("cleanBackupObjectDisks: requesst object disks path but "
                    +:+ "have unsupported remote_storage: "
                    +:+ Receiver.RemoteStorage r)).

Section Embedded.
(** [path.Join], the methods [Parse] and [String] of [net/url.URL],
    [b.ch.ApplyMacros(ctx, s)], whose two results are both assigned, and
    [os.Getenv]. *)
Variable path_Join : list string -> string.
Variable URL_Parse : URL.t -> string -> option URL.t.
Variable URL_String : URL.t -> string.
Variable ApplyMacros : string -> string * option error.
Variable Getenv : string -> string.

(** The configured sub-path is overwritten with the first result of
    [ApplyMacros], also when the second is an error. *)
Definition applyMacrosToObjectDiskPath (r : Receiver.t)
  : Receiver.t * option error :=
  if bool_decide (Receiver.RemoteStorage r = "s3")
  then
    let '(v, err) := ApplyMacros (S3Config.ObjectDiskPath (Receiver.S3 r)) in
    (Receiver.setS3ObjectDiskPath v r, err)
  else if bool_decide (Receiver.RemoteStorage r = "gcs")
  then
    let '(v, err) :=
      ApplyMacros (GCSConfig.ObjectDiskPath (Receiver.GCS r)) in
    (Receiver.setGCS (GCSConfig.setObjectDiskPath v (Receiver.GCS r)) r, err)
  else if bool_decide (Receiver.RemoteStorage r = "azblob")
  then
    let '(v, err) :=
      ApplyMacros (AzureBlobConfig.ObjectDiskPath (Receiver.AzureBlob r)) in
    (Receiver.setAzureBlob
       (AzureBlobConfig.setObjectDiskPath v (Receiver.AzureBlob r)) r, err)
  else (r, None).

(** *** [buildEmbeddedLocationGCS], [buildEmbeddedLocationAZBLOB] *)

(** The local [url] at [return url.String()]; [None] when [*newUrl]
    dereferences the nil pointer of a failed parse. *)
Definition buildEmbeddedLocationGCS_url (r : Receiver.t) : option URL.t :=
  let gcs := Receiver.GCS r in
  let url := URL.setScheme "https" URL.zero in
  let url := if GCSConfig.ForceHttp gcs then URL.setScheme "http" url
             else url in
  url ← (if bool_decide (GCSConfig.Endpoint gcs <> "")
         then
           if negb (HasPrefix (GCSConfig.Endpoint gcs) "http")
           then Some (URL.setHost (GCSConfig.Endpoint gcs) url)
           else URL_Parse url (GCSConfig.Endpoint gcs)
         else Some url);
  let url :=
    if bool_decide (URL.Host url = "")
    then URL.setHost "storage.googleapis.com" url else url in
  Some (URL.setPath
          (path_Join [GCSConfig.Bucket gcs; GCSConfig.ObjectDiskPath gcs])
          url).

Definition buildEmbeddedLocationGCS (r : Receiver.t) : option string :=
  URL_String <$> buildEmbeddedLocationGCS_url r.

Definition buildEmbeddedLocationAZBLOB (r : Receiver.t) : string :=
  let az := Receiver.AzureBlob r in
  let url :=
    URL.setPath (AzureBlobConfig.AccountName az)
      (URL.setHost (AzureBlobConfig.EndpointSuffix az)
         (URL.setScheme (AzureBlobConfig.EndpointSchema az) URL.zero)) in
  "DefaultEndpointsProtocol=" +:+ AzureBlobConfig.EndpointSchema az
  +:+ ";AccountName=" +:+ AzureBlobConfig.AccountName az
  +:+ ";AccountKey=" +:+ AzureBlobConfig.AccountKey az
  +:+ ";BlobEndpoint=" +:+ URL_String url +:+ ";".

(** *** [getEmbeddedBackupLocation] *)

(** [fmt.Sprintf("S3('%s/%s','%s','%s')", ...)]. *)
Definition sprintfS3 (endpoint backupName key secret : string) : string :=
  "S3('" +:+ endpoint +:+ "/" +:+ backupName +:+ "','" +:+ key +:+ "','"
  +:+ secret +:+ "')".

(** Lines 197-203 and 210-216: the keys of the configuration, else those of
    the environment, else the error [missing]. *)
Definition withKeys (endpoint backupName key secret missing : string)
  : orError string :=
  if bool_decide (key <> "")
  then Ok (sprintfS3 endpoint backupName key secret)
  else if bool_decide (Getenv "AWS_ACCESS_KEY_ID" <> "")
  then Ok (sprintfS3 endpoint backupName (Getenv "AWS_ACCESS_KEY_ID")
                     (Getenv "AWS_SECRET_ACCESS_KEY"))
  else Err (Errorf missing).

(** The method returns the string and the error; the receiver, whose
    configuration it rewrites, is returned with them.  [None] is a panic
    of one of the builders. *)
Definition getEmbeddedBackupLocation (r : Receiver.t) (backupName : string)
  : Receiver.t * option (orError string) :=
  if bool_decide
       (ClickHouseConfig.EmbeddedBackupDisk (Receiver.ClickHouse r) <> "")
  then
    (r, Some (Ok ("Disk('"
                  +:+ ClickHouseConfig.EmbeddedBackupDisk (Receiver.ClickHouse r)
                  +:+ "','" +:+ backupName +:+ "')")))
  else
    match applyMacrosToObjectDiskPath r with
    | (r, Some err) => (r, Some (Err err))
    | (r, None) =>
        if bool_decide (Receiver.RemoteStorage r = "s3")
        then
          match buildEmbeddedLocationS3 path_Join URL_Parse URL_String
                  (Receiver.core r) with
          | None => (r, None)
          | Some location =>
              match ApplyMacros location with
              | (_, Some err) => (r, Some (Err err))
              | (s3Endpoint, None) =>
                  (r, Some (withKeys s3Endpoint backupName
                              (Receiver.S3AccessKey r) (Receiver.S3SecretKey r)
                              ("provide s3->access_key and s3->secret_key in "
                               +:+ "config to allow embedded backup without "
                               +:+ "`clickhouse->embedded_backup_disk`")))
              end
          end
        else if bool_decide (Receiver.RemoteStorage r = "gcs")
        then
          match buildEmbeddedLocationGCS r with
          | None => (r, None)
          | Some location =>
              match ApplyMacros location with
              | (_, Some err) => (r, Some (Err err))
              | (gcsEndpoint, None) =>
                  (r, Some (withKeys gcsEndpoint backupName
                              (GCSConfig.EmbeddedAccessKey (Receiver.GCS r))
                              (GCSConfig.EmbeddedSecretKey (Receiver.GCS r))
                              ("provide gcs->embedded_access_key and "
                               +:+ "gcs->embedded_secret_key in config to "
                               +:+ "allow embedded backup without "
                               +:+ "`clickhouse->embedded_backup_disk`")))
              end
          end
        else if bool_decide (Receiver.RemoteStorage r = "azblob")
        then
          match ApplyMacros (buildEmbeddedLocationAZBLOB r) with
          | (_, Some err) => (r, Some (Err err))
          | (azblobEndpoint, None) =>
              let az := Receiver.AzureBlob r in
              if bool_decide (AzureBlobConfig.Container az <> "")
              then
                (r, Some (Ok ("AzureBlobStorage('" +:+ azblobEndpoint
                              +:+ "','" +:+ AzureBlobConfig.Container az
                              +:+ "','" +:+ AzureBlobConfig.ObjectDiskPath az
                              +:+ "/" +:+ backupName +:+ "')")))
              else
                (r, Some (Err (Errorf
                   ("provide azblob->container and azblob->account_name, "
                    +:+ "azblob->account_key in config to allow embedded "
                    +:+ "backup without "
                    +:+ "`clickhouse->embedded_backup_disk`"))))
          end
        else
          (r, Some (Err (Errorf
             ("empty clickhouse->embedded_backup_disk and invalid "
              +:+ "general->remote_storage: " +:+ Receiver.RemoteStorage r))))
    end.
End Embedded.

End BackuperMore.

(** *** [initDisksPathdsAndBackupDestination] *)

Module BackuperInit.
Import Backuper BackuperMore.

(** The four fields of the receiver that the method writes; [dst] is the
    pointer, [None] when nil. *)
Module Paths.
Record t : Type := mk
  { DefaultDataPath : string;
    EmbeddedBackupDataPath : string;
    DiskToPathMap : gmap string string;
    dst : option BackupDestination.t }.

Definition setDefaultDataPath (v : string) (p : t) : t :=
  mk v (EmbeddedBackupDataPath p) (DiskToPathMap p) (dst p).
Definition setDst (v : option BackupDestination.t) (p : t) : t :=
  mk (DefaultDataPath p) (EmbeddedBackupDataPath p) (DiskToPathMap p) v.
End Paths.

Section Init.
(** [b.ch.GetDisks(ctx, true)], [b.ch.GetDefaultPath(disks)], whose two
    results are both assigned, [storage.NewBackupDestination(ctx, b.cfg,
    b.ch, true, backupName)], which returns a nil pointer with its error,
    the methods [Connect] and [Kind] of the destination, and the package's
    [ErrUnknownClickhouseDataPath]. *)
Variable GetDisks : orError (list Disk.t).
Variable GetDefaultPath : list Disk.t -> string * option error.
Variable NewBackupDestination :
  Receiver.t -> string -> orError BackupDestination.t.
Variable Connect : BackupDestination.t -> option error.
Variable Kind : BackupDestination.t -> string.
Variable ErrUnknownClickhouseDataPath : error.

(** The condition of line 92. *)
Definition holdsEmbedded (r : Receiver.t) (disk : Disk.t) : bool :=
  ClickHouseConfig.UseEmbeddedBackupRestore (Receiver.ClickHouse r)
  && (Disk.IsBackup disk
      || bool_decide (Disk.Name disk
                      = ClickHouseConfig.EmbeddedBackupDisk
                          (Receiver.ClickHouse r))).

(** Lines 90-95: the state is [(diskMap, b.EmbeddedBackupDataPath)]. *)
Definition diskLoop (r : Receiver.t) (disks : list Disk.t)
  (st : gmap string string * string) : gmap string string * string :=
  fold_left
    (fun '(diskMap, embedded) disk =>
       (<[Disk.Name disk := Disk.Path disk]> diskMap,
        if holdsEmbedded r disk then Disk.Path disk else embedded))
    disks st.

(** [r] is the receiver as to its configuration, [p] as to the fields the
    method writes; [disks] is [None] for a nil slice. *)
Definition initDisksPathdsAndBackupDestination (r : Receiver.t) (p : Paths.t)
  (disks : option (list Disk.t)) (backupName : string)
  : Paths.t * option error :=
  match (match disks with Some disks => Ok disks | None => GetDisks end) with
  | Err err => (p, Some err)
  | Ok disks =>
      let '(defaultPath, err) := GetDefaultPath disks in
      let p := Paths.setDefaultDataPath defaultPath p in
      match err with
      | Some _ => (p, Some ErrUnknownClickhouseDataPath)
      | None =>
          let '(diskMap, embedded) :=
            diskLoop r disks (∅, Paths.EmbeddedBackupDataPath p) in
          let embedded :=
            if ClickHouseConfig.UseEmbeddedBackupRestore (Receiver.ClickHouse r)
               && bool_decide (embedded = "")
            then Paths.DefaultDataPath p else embedded in
          let p := Paths.mk (Paths.DefaultDataPath p) embedded diskMap
                            (Paths.dst p) in
          if bool_decide (Receiver.RemoteStorage r <> "none")
             && bool_decide (Receiver.RemoteStorage r <> "custom")
          then
            match NewBackupDestination r backupName with
            | Err err => (Paths.setDst None p, Some err)
            | Ok d =>
                let p := Paths.setDst (Some d) p in
                match Connect d with
                | Some err =>
                    (p, Some (Errorf ("can't connect to " +:+ Kind d +:+ ": "
                                      +:+ Error err)))
                | None => (p, None)
                end
            end
          else (p, None)
      end
  end.

(** *** [getLocalBackupDataPathForTable] *)

(** [b.DiskToPathMap[disk]] is the empty string for a disk that is not in
    the map. *)
Definition getLocalBackupDataPathForTable (path_Join : list string -> string)
  (p : Paths.t) (isEmbedded : bool) (backupName disk dbAndTablePath : string)
  : string :=
  let diskPath := default "" (Paths.DiskToPathMap p !! disk) in
  let backupPath :=
    path_Join [diskPath; "backup"; backupName; "shadow"; dbAndTablePath;
               disk] in
  if isEmbedded
  then path_Join [diskPath; backupName; "data"; dbAndTablePath]
  else backupPath.
End Init.

End BackuperInit.

(** *** The remaining methods: surroundings of the examples *)

Module MoreExamples.
Import Backuper BackuperMore BackuperInit.

(** A receiver for the storage [remote]: no embedded backup disk, the
    sub-path [{shard}/disks] on every provider, keys in the configuration
    for GCS only. *)
Definition receiver_ex (remote : string) : Receiver.t :=
  Receiver.mk
    (mkBackuper
       (Config.mk "none" remote
          (S3Config.mk "" "mybucket" "{shard}/disks" "us-east-1" false false))
       (mkVersioner None) None Diffing.dst_ex "/var/lib/clickhouse")
    (ClickHouseConfig.mk true "")
    "" ""
    (GCSConfig.mk "" "gbucket" "{shard}/disks" false "gkey" "gsecret")
    (AzureBlobConfig.mk "https" "core.windows.net" "account" "key" ""
                        "{shard}/disks").

(** The same with the embedded backup disk [backups]. *)
Definition receiver_disk (remote : string) : Receiver.t :=
  Receiver.mk (Receiver.core (receiver_ex remote))
    (ClickHouseConfig.mk true "backups") "" ""
    (Receiver.GCS (receiver_ex remote))
    (Receiver.AzureBlob (receiver_ex remote)).

(** Macro expansion that knows the sub-path of the examples and leaves
    everything else as it is. *)
Definition macros_ex (s : string) : string * option error :=
  if bool_decide (s = "{shard}/disks") then ("01/disks", None) else (s, None).

(** Macro expansion that fails. *)
Definition macros_fail (s : string) : string * option error :=
  ("", Some (Errorf "can't get macros from system.macros")).

Definition no_env (name : string) : string := "".


(** A GCS section with the endpoint [endpoint] and [ForceHttp]. *)
Definition receiver_gcs (endpoint : string) (forceHttp : bool) : Receiver.t :=
  Receiver.setGCS
    (GCSConfig.mk endpoint "gbucket" "disks" forceHttp "gkey" "gsecret")
    (receiver_ex "gcs").

(** Three disks: the default one, a backup disk, and the backup disk
    listed once more under another path. *)
Definition disks_ex : list Disk.t :=
  [Disk.mk "default" "/var/lib/clickhouse/" "local" false;
   Disk.mk "backups" "/mnt/backups/" "local" true;
   Disk.mk "backups" "/mnt/backups2/" "local" true].

Definition defaultPath_ex (disks : list Disk.t) : string * option error :=
  ("/var/lib/clickhouse", None).

Definition paths_zero : Paths.t := Paths.mk "" "" ∅ None.

Definition init_ex (remote : string)
  : Paths.t * option error :=
  initDisksPathdsAndBackupDestination (Err (Errorf "no connection"))
    defaultPath_ex (fun _ _ => Ok Diffing.dst_ex) (fun _ => None)
    (fun _ => remote) (Errorf "clickhouse data path is unknown")
    (receiver_ex remote) paths_zero (Some disks_ex) "daily".

End MoreExamples.

(** *** Disks and paths *)

Module InitWords.
Import Backuper BackuperMore BackuperInit.

(** The disks of a list that bear the name [name], and those that hold
    embedded backups. *)
Definition named (name : string) (disks : list Disk.t) : list Disk.t :=
  filter (fun d => Disk.Name d = name) disks.

Definition embeddedDisks (r : Receiver.t) (disks : list Disk.t)
  : list Disk.t :=
  filter (fun d => holdsEmbedded r d = true) disks.

End InitWords.

(** *** Traces of [Upload] *)

Module Traces.
Import Legacy.

(** Whatever the trace so far, [m] appends to it only events that
    satisfy [P]. *)
Definition emits {A} (P : event -> Prop) (m : M A) : Prop :=
  forall tr, exists tr', (m tr).2 = tr ++ tr' /\ Forall P tr'.

(** Events that read or send part data. *)
Definition movesData (ev : event) : Prop :=
  match ev with
  | EvWalkParts _ | EvCompressedStreamUpload _ _ _ => True
  | _ => False
  end.

(** Opening and closing the connection to the database. *)
Definition connection (ev : event) : Prop :=
  match ev with
  | EvChConnect | EvChClose => True
  | _ => False
  end.

(** The archive names of lines 86-88 for the batches [parts], numbered
    from [i]. *)
Fixpoint archiveNames (disk ext : string) (i : Z) (parts : list (list string))
  : list string :=
  match parts with
  | [] => []
  | _ :: rest =>
      (disk +:+ "_" +:+ itoa (i + 1) +:+ "." +:+ ext)
        :: archiveNames disk ext (i + 1) rest
  end.

(** A table with the UUID [uuid] and one part on the disk [default]. *)
Definition table_ex (uuid : string) : TableMetadata :=
  mkTableMetadata "t" "db" uuid {[ "default" := [mkPart "p"] ]} ∅.

(** The surroundings of [Uploading.UploadIn] with the part directory of
    [Batching.fs_three_files] under the shadow path of [table_ex ""] and
    the local backup listing the tables [tables]. *)
Definition fs_shadow (path : string) : node :=
  if bool_decide (path = "/data/backup/daily/shadow/db/t/p")
  then Batching.fs_three_files "/b/p"
  else NoEnt "no such file or directory".

Definition UploadTables (ch : ClickHouse) (tables : list TableMetadata)
  (schemaOnly : bool) : outcome unit * list event :=
  Upload Batching.join_slash Batching.join2_slash fs_shadow ch
         (fun _ => Ok Uploading.bd_ok) (fun _ _ => None) (fun _ => None)
         (fun _ _ => (tables, None)) id (fun _ => "tar")
         (fun _ => Ok "{}") (fun _ => Ok "{}")
         (Errorf "clickhouse data path is unknown")
         (mkConfig (mkGeneral "s3" 15)) "daily" "" "" schemaOnly [].

Definition ch_data : ClickHouse :=
  mkClickHouse None (Ok "/data") (Ok [Disk.mk "default" "/data"]).

End Traces.

(** * Theorems *)

(** ** Go runtime *)

Lemma wrap64_id (z : Z) : int64 z -> wrap64 z = z.
Proof.
  unfold int64, wrap64. intros Hz.
  rewrite Z.mod_small by lia. lia.
Qed.

(** ** [filepath.Walk] under the closure of [separateParts] *)

Section NodeInduction.
Variable P : node -> Prop.
Hypothesis HNoEnt : forall e, P (NoEnt e).
Hypothesis HFile : forall regular size, P (File regular size).
Hypothesis HDir : forall size readErr entries,
    Forall (fun entry => P entry.2) entries -> P (Dir size readErr entries).

Lemma node_ind_entries : forall n, P n.
Proof.
  fix IH 1. intros [e | regular size | size readErr entries].
  - apply HNoEnt.
  - apply HFile.
  - apply HDir. induction entries as [| [name child] rest IHrest].
    + constructor.
    + constructor; [apply IH | apply IHrest].
Qed.
End NodeInduction.

Section BatchingFacts.
Import Legacy Batching.
Variable path_Join : list string -> string.
Variable filepath_Join : string -> string -> string.
Variable fs : string -> node.
Variable basePath : string.
Variable maxSize : Z.

Local Abbreviation walkFn := (separateParts_walkFn basePath maxSize).
Local Abbreviation addFile := (addFile basePath maxSize).

Lemma reached_not_SkipDir path n :
  (reached filepath_Join path n).2 <> Some SkipDir.
Proof.
  revert path. induction n as [e | regular size | size readErr entries IH]
    using node_ind_entries; intros path; simpl.
  - discriminate.
  - discriminate.
  - destruct readErr as [e |]; [discriminate |].
    induction IH as [| [name child] rest Hchild _ IHrest]; simpl.
    + discriminate.
    + specialize (Hchild (filepath_Join path name)). simpl in Hchild.
      destruct (reached filepath_Join (filepath_Join path name) child)
        as [l [e |]]; simpl in *; [exact Hchild |].
      match goal with |- context [let '(_, _) := ?x in _] => destruct x end.
      exact IHrest.
Qed.

Lemma reached_readable path n :
  readable n = true ->
  reached filepath_Join path n = (regularFiles filepath_Join path n, None).
Proof.
  revert path. induction n as [e | regular size | size readErr entries IH]
    using node_ind_entries; intros path; simpl.
  - discriminate.
  - reflexivity.
  - destruct readErr as [e |]; [discriminate |].
    induction IH as [| [name child] rest Hchild _ IHrest]; simpl.
    + reflexivity.
    + rewrite andb_true_iff. intros [Hc Hrest].
      simpl in Hchild. rewrite (Hchild _ Hc), (IHrest Hrest). reflexivity.
Qed.

Lemma walk_reached path n st :
  walk filepath_Join walkFn path n st
  = (fold_left addFile (reached filepath_Join path n).1 st,
     (reached filepath_Join path n).2).
Proof.
  revert path st.
  induction n as [e | regular size | size readErr entries IH]
    using node_ind_entries; intros path st.
  - reflexivity.
  - destruct regular; reflexivity.
  - cbn [walk reached]. destruct readErr as [e |]; [reflexivity |].
    cbn -[bool_decide].
    rewrite !bool_decide_eq_false_2 by (intros H; apply H; reflexivity).
    cbn [orb]. revert st.
    induction IH as [| [name child] rest Hchild _ IHrest]; intros st.
    + reflexivity.
    + simpl in Hchild. rewrite Hchild.
      pose proof (reached_not_SkipDir (filepath_Join path name) child) as Hskip.
      destruct (reached filepath_Join (filepath_Join path name) child)
        as [l [e |]]; simpl in *.
      * rewrite bool_decide_eq_false_2 by congruence.
        rewrite andb_false_r. reflexivity.
      * rewrite IHrest.
        match goal with |- context [let '(_, _) := ?x in _] => destruct x end.
        simpl. rewrite fold_left_app. reflexivity.
Qed.

Lemma Walk_reached path n st :
  (Walk filepath_Join walkFn path n st).1
  = fold_left addFile (reached filepath_Join path n).1 st.
Proof.
  unfold Walk. rewrite walk_reached.
  pose proof (reached_not_SkipDir path n) as Hskip.
  destruct (reached filepath_Join path n) as [l err]; simpl in *.
  rewrite bool_decide_eq_false_2 by exact Hskip. reflexivity.
Qed.

Lemma loop_walkedFiles parts st :
  separateParts_loop path_Join filepath_Join fs basePath maxSize parts st
  = fold_left addFile
      (walkedFiles path_Join filepath_Join fs basePath parts) st.
Proof.
  unfold separateParts_loop, walkedFiles.
  revert st. induction parts as [| part parts IH]; intros st; simpl.
  - reflexivity.
  - rewrite Walk_reached, fold_left_app. apply IH.
Qed.

Lemma cumulative_app g h : cumulative (g ++ h) = cumulative g + cumulative h.
Proof.
  unfold cumulative. induction g as [| f g IH]; simpl; [reflexivity |].
  rewrite IH. lia.
Qed.

Lemma cumulative_nonneg g : Forall (fun f => 0 <= f.2) g -> 0 <= cumulative g.
Proof.
  unfold cumulative. induction 1 as [| f g Hf _ IH]; simpl; lia.
Qed.

Lemma fits_app_l l l' : fits (l ++ l') -> fits l.
Proof.
  unfold fits. rewrite Forall_app, cumulative_app. intros [[Hl Hl'] Hsum].
  split; [exact Hl |]. pose proof (cumulative_nonneg _ Hl'). lia.
Qed.


End BatchingFacts.



(** Without [fits] the bound is lost: two files of 2^62 bytes wrap the
    running size around, and both land in one batch of 2^63 bytes under the
    limit 2^63 - 1. *)
Lemma separateParts_overflow :
  ~ exists groups,
      Batching.splits Batching.join_slash Batching.join2_slash
        Batching.fs_two_huge "/b" [Legacy.mkPart "p"] (2 ^ 63 - 1) groups
      /\ Forall (Batching.within_or_empty (2 ^ 63 - 1)) groups.
Proof.
  intros (groups & [Hcat Hres] & Hall).
  vm_compute in Hres.
  destruct groups as [| g groups]; [discriminate |].
  destruct groups as [| g' groups]; [| discriminate].
  simpl in Hcat. rewrite app_nil_r in Hcat. subst g.
  apply Forall_inv in Hall.
  destruct Hall as [[Hle | (f & Hf & _)] | Hnil]; try discriminate.
  vm_compute in Hle. apply Hle. reflexivity.
Qed.

(** C5 (the code departs from it).  [separateParts] returns a nil error
    whatever the walk met: the value of [filepath.Walk] is dropped.  With a
    part directory that does not exist the read fails, and the function
    returns no batch and no error. *)
Theorem separateParts_error_always_nil :
  (forall path_Join filepath_Join fs basePath parts maxSize,
      (Legacy.separateParts path_Join filepath_Join fs basePath parts maxSize).2
      = None)
  /\ Batching.readFails Batching.join_slash Batching.join2_slash
       Batching.fs_missing "/b" [Legacy.mkPart "p"]
  /\ Legacy.separateParts Batching.join_slash Batching.join2_slash
       Batching.fs_missing "/b" [Legacy.mkPart "p"] 10 = ([], None).
Proof.
  split; [reflexivity |]. split; [| reflexivity].
  constructor. simpl. discriminate.
Qed.

(** ** The older [Upload] and [diffFrom] *)

Section UploadFacts.
Import Legacy Uploading.
Variable path_Join : list string -> string.
Variable filepath_Join : string -> string -> string.
Variable fs : string -> node.
Variable ch : ClickHouse.
Variable NewBackupDestination : Config -> orError BackupDestination.
Variable GetLocalBackup : Config -> string -> option error.
Variable os_Stat : string -> option error.
Variable parseSchemaPattern :
  string -> string -> list TableMetadata * option error.
Variable TablePathEncode : string -> string.
Variable GetArchiveExtension : Config -> string.
Variable json_MarshalIndent : TableMetadata -> orError string.
Variable ioutil_ReadFile : string -> orError string.
Variable ErrUnknownClickhouseDataPath : error.

Local Abbreviation Upload :=
  (Upload path_Join filepath_Join fs ch NewBackupDestination GetLocalBackup
          os_Stat parseSchemaPattern TablePathEncode GetArchiveExtension
          json_MarshalIndent ioutil_ReadFile ErrUnknownClickhouseDataPath).

End UploadFacts.



(** ** [populateBackupShardField] *)

Section ShardFacts.
Import Backuper Sharding.

Lemma alter_middle {A} (f : A -> A) (done : list A) (x : A) (rest : list A) :
  alter f (length done) (done ++ x :: rest) = done ++ f x :: rest.
Proof.
  induction done as [| y done IH]; simpl; [reflexivity |].
  f_equal. exact IH.
Qed.

Lemma defaultLoop_from (done rest : list Table.t) :
  defaultLoop (seq (length done) (length rest)) (done ++ rest)
  = done ++ defaults rest.
Proof.
  revert done. induction rest as [| tbl rest IH]; intros done; simpl.
  - reflexivity.
  - rewrite list_lookup_alter_eq, list_lookup_middle by lia. simpl.
    rewrite !alter_middle.
    assert (Hstep :
      (if Table.Skip tbl
       then done ++ Table.setBackupType ShardBackupNone
                      (Table.setBackupType ShardBackupFull tbl) :: rest
       else done ++ Table.setBackupType ShardBackupFull tbl :: rest)
      = (done ++ [Table.setBackupType (defaultType tbl) tbl]) ++ rest).
    { unfold defaultType.
      destruct (Table.Skip tbl); rewrite <- app_assoc; reflexivity. }
    rewrite Hstep.
    replace (S (length done))
      with (length (done ++ [Table.setBackupType (defaultType tbl) tbl]))
      by (rewrite length_app; simpl; lia).
    rewrite IH, <- app_assoc. reflexivity.
Qed.

Lemma defaultLoop_defaults (tables : list Table.t) :
  defaultLoop (seq 0 (length tables)) tables = defaults tables.
Proof. apply (defaultLoop_from [] tables). Qed.

Lemma shardLoop_from assignment (done rest : list Table.t) :
  shardLoop assignment (seq (length done) (length rest)) (done ++ rest)
  = (done ++ (shardList assignment rest).1, (shardList assignment rest).2).
Proof.
  revert done. induction rest as [| tbl rest IH]; intros done; simpl.
  - rewrite app_nil_r. reflexivity.
  - rewrite list_lookup_middle by lia.
    assert (Hnext : forall tbl',
      shardLoop assignment (seq (S (length done)) (length rest))
        (done ++ tbl' :: rest)
      = (done ++ tbl' :: (shardList assignment rest).1,
         (shardList assignment rest).2)).
    { intros tbl'.
      replace (S (length done)) with (length (done ++ [tbl']))
        by (rewrite length_app; simpl; lia).
      replace (done ++ tbl' :: rest) with ((done ++ [tbl']) ++ rest)
        by (rewrite <- app_assoc; reflexivity).
      rewrite IH, <- app_assoc. reflexivity. }
    destruct (Table.Skip tbl).
    + rewrite Hnext. destruct (shardList assignment rest). reflexivity.
    + destruct (inShard assignment (Table.Database tbl) (Table.Name tbl))
        as [fullBackup | err]; [| reflexivity].
      destruct fullBackup; simpl.
      * rewrite Hnext. destruct (shardList assignment rest). reflexivity.
      * rewrite alter_middle, Hnext.
        destruct (shardList assignment rest). reflexivity.
Qed.

Lemma shardLoop_shardList assignment (tables : list Table.t) :
  shardLoop assignment (seq 0 (length tables)) tables
  = shardList assignment tables.
Proof.
  pose proof (shardLoop_from assignment [] tables) as H. simpl in H.
  rewrite H. destruct (shardList assignment tables). reflexivity.
Qed.


Lemma defaults_types tables tbl :
  tbl ∈ defaults tables ->
  Table.BackupType tbl = defaultType tbl
  /\ Table.BackupType tbl <> ShardBackupSchema.
Proof.
  unfold defaults. rewrite list_elem_of_fmap. intros (tbl0 & -> & _).
  unfold defaultType. simpl. destruct (Table.Skip tbl0); split; congruence.
Qed.

Lemma defaults_overwritten tables :
  Forall2 overwritten tables (defaults tables).
Proof.
  induction tables as [| tbl tables IH]; constructor;
    [left; reflexivity | exact IH].
Qed.

Lemma shardList_overwritten assignment tables :
  Forall2 overwritten tables (shardList assignment (defaults tables)).1.
Proof.
  induction tables as [| tbl tables IH]; simpl; [constructor |].
  destruct (Table.Skip tbl) eqn:Hskip.
  - destruct (shardList assignment (defaults tables)) as [rest' err].
    constructor; [left; reflexivity | exact IH].
  - destruct (inShard assignment (Table.Database tbl) (Table.Name tbl))
      as [fullBackup | err].
    + destruct (shardList assignment (defaults tables)) as [rest' err].
      constructor; [| exact IH].
      destruct fullBackup; simpl; [left; reflexivity |].
      right. split; [exact Hskip | reflexivity].
    + constructor; [left; reflexivity | apply defaults_overwritten].
Qed.

Variable shardFunc : Type.
Variable doesShard : string -> bool.
Variable shardFuncByName : string -> orError shardFunc.
Variable newReplicaDeterminer : shardFunc -> backupSharder.

Local Abbreviation populateBackupShardField :=
  (populateBackupShardField shardFunc doesShard shardFuncByName
                            newReplicaDeterminer).

(** C6.  Without a sharding policy the method returns nil and leaves every
    table with its default: [Full] when it is not skipped, [None] when it
    is; no table is schema-only. *)
Theorem populate_without_policy (b : Backuper) (tables : list Table.t) :
  doesShard (Config.ShardedOperationMode (cfg b)) = false ->
  populateBackupShardField b tables = (b, defaults tables, None)
  /\ Forall2 (fun tbl tbl' =>
                tbl' = Table.setBackupType
                         (if Table.Skip tbl then ShardBackupNone
                          else ShardBackupFull) tbl)
             tables (defaults tables)
  /\ forall tbl, tbl ∈ defaults tables ->
       Table.BackupType tbl
       = (if Table.Skip tbl then ShardBackupNone else ShardBackupFull)
       /\ Table.BackupType tbl <> ShardBackupSchema.
Proof.
  intros Hmode. unfold Backuper.populateBackupShardField.
  rewrite defaultLoop_defaults, Hmode. simpl.
  split; [reflexivity |]. split.
  - induction tables as [| tbl tables IH]; constructor;
      [reflexivity | exact IH].
  - apply defaults_types.
Qed.

(** C3.  With a sharding policy and a failing capability check the method
    returns the error of the check, and no table is schema-only: every
    table has its default. *)
Theorem populate_capability_error (b : Backuper) (tables : list Table.t)
  (err : error) :
  doesShard (Config.ShardedOperationMode (cfg b)) = true ->
  CanShardOperation (vers b) = Some err ->
  populateBackupShardField b tables = (b, defaults tables, Some err)
  /\ forall tbl, tbl ∈ defaults tables ->
       Table.BackupType tbl <> ShardBackupSchema.
Proof.
  intros Hmode Hcap. unfold Backuper.populateBackupShardField.
  rewrite defaultLoop_defaults, Hmode, Hcap. simpl.
  split; [reflexivity |]. intros tbl Hin. apply (defaults_types _ _ Hin).
Qed.

Lemma populate_error_shape (b b' : Backuper) (tables tables' : list Table.t)
  (err : error) :
  populateBackupShardField b tables = (b', tables', Some err) ->
  Forall2 overwritten tables tables'
  /\ (tables' = defaults tables
      \/ exists assignment,
           shardList assignment (defaults tables) = (tables', Some err)).
Proof.
  unfold Backuper.populateBackupShardField.
  rewrite defaultLoop_defaults.
  destruct (doesShard _); simpl; [| discriminate].
  assert (Hdefaults : forall b0 e,
    (b0, defaults tables, Some e) = (b', tables', Some err) ->
    Forall2 overwritten tables tables'
    /\ (tables' = defaults tables
        \/ exists assignment,
             shardList assignment (defaults tables) = (tables', Some err))).
  { intros b0 e [= <- <- <-].
    split; [apply defaults_overwritten | left; reflexivity]. }
  destruct (CanShardOperation (vers b)) as [e |]; [apply Hdefaults |].
  set (sharder := match bs b with Some s => _ | None => _ end).
  destruct sharder as [[b1 s] | e]; [| apply Hdefaults].
  destruct (determineShards s) as [assignment | e]; [| apply Hdefaults].
  rewrite shardLoop_shardList.
  pose proof (shardList_overwritten assignment tables) as Hover.
  destruct (shardList assignment (defaults tables)) as [l e] eqn:Hl.
  intros [= <- <- ->]. split; [exact Hover |].
  right. exists assignment. exact Hl.
Qed.
End ShardFacts.

Lemma populate_without_policy_witness :
  Sharding.populate_ex "none" None Sharding.tables_ex
  = (Sharding.backuper_ex "none" None, Sharding.defaults Sharding.tables_ex,
     None).
Proof.
  apply (populate_without_policy unit Sharding.doesShard_ex
           (fun _ => Err (Errorf "unknown policy"))
           (fun _ => Backuper.mkBackupSharder (Ok Sharding.assignment_ex))
           (Sharding.backuper_ex "none" None) Sharding.tables_ex).
  reflexivity.
Defined.

Lemma populate_capability_error_witness :
  Sharding.populate_ex "table"
    (Some (Errorf "sharded operations are not supported")) Sharding.tables_ex
  = (Sharding.backuper_ex "table"
       (Some (Errorf "sharded operations are not supported")),
     Sharding.defaults Sharding.tables_ex,
     Some (Errorf "sharded operations are not supported")).
Proof.
  apply (populate_capability_error unit Sharding.doesShard_ex
           (fun _ => Err (Errorf "unknown policy"))
           (fun _ => Backuper.mkBackupSharder (Ok Sharding.assignment_ex))
           (Sharding.backuper_ex "table"
              (Some (Errorf "sharded operations are not supported")))
           Sharding.tables_ex); reflexivity.
Defined.

(** C10.  The method is not atomic on error.  Whenever it returns an error,
    every table has had its [BackupType] overwritten, by the default or, for
    a table that is not skipped, by schema-only; the tables are exactly the
    defaults unless the error is a failed lookup of the second loop.  Such a
    failure does leave an earlier table schema-only: of the four tables of
    the example the first one is downgraded before the lookup of the third
    fails, and the fourth one, schema-only before the call, is [Full]. *)
Theorem populate_not_atomic :
  (forall shardFunc doesShard shardFuncByName newReplicaDeterminer
          (b b' : Backuper.Backuper) (tables tables' : list Backuper.Table.t)
          (err : error),
      Backuper.populateBackupShardField shardFunc doesShard shardFuncByName
        newReplicaDeterminer b tables = (b', tables', Some err) ->
      Forall2 Sharding.overwritten tables tables'
      /\ (tables' = Sharding.defaults tables
          \/ exists assignment,
               Sharding.shardList assignment (Sharding.defaults tables)
               = (tables', Some err)))
  /\ Sharding.populate_ex "table" None Sharding.tables_ex
     = (Sharding.backuper_ex "table" None,
        [Backuper.Table.mk "db" "moved" false Backuper.ShardBackupSchema;
         Backuper.Table.mk "db" "hidden" true Backuper.ShardBackupNone;
         Backuper.Table.mk "db" "unknown" false Backuper.ShardBackupFull;
         Backuper.Table.mk "db" "kept" false Backuper.ShardBackupFull],
        Some (Errorf "table not found in shard assignment")).
Proof.
  split; [| reflexivity].
  intros. eapply populate_error_shape. eassumption.
Qed.

Lemma populate_not_atomic_witness :
  Forall2 Sharding.overwritten Sharding.tables_ex
    [Backuper.Table.mk "db" "moved" false Backuper.ShardBackupSchema;
     Backuper.Table.mk "db" "hidden" true Backuper.ShardBackupNone;
     Backuper.Table.mk "db" "unknown" false Backuper.ShardBackupFull;
     Backuper.Table.mk "db" "kept" false Backuper.ShardBackupFull].
Proof.
  destruct populate_not_atomic as [Hshape Hex].
  exact (proj1 (Hshape _ _ _ _ _ _ _ _ _ Hex)).
Defined.

(** ** [isDiskTypeEncryptedObject] *)

Section ClassifierFacts.
Import Backuper Classifier.

Lemma string_gt_empty (p : string) : string_gt p "" = true <-> p <> "".
Proof.
  unfold string_gt. destruct p as [| c p]; simpl; split; congruence.
Qed.

Lemma isDiskTypeObject_true (diskType : string) :
  isDiskTypeObject diskType = true
  <-> diskType = "s3" \/ diskType = "azure_blob_storage" \/ diskType = "azure".
Proof.
  unfold isDiskTypeObject.
  rewrite !orb_true_iff, !bool_decide_eq_true. tauto.
Qed.

(** The condition of line 174. *)
Lemma line174_underlies (disk d : Disk.t) :
  bool_decide (Disk.Name d <> Disk.Name disk)
  && HasPrefix (Disk.Path disk) (Disk.Path d)
  && isDiskTypeObject (Disk.Type_ d) = true
  <-> underlies disk d.
Proof.
  unfold underlies, HasPrefix.
  rewrite !andb_true_iff, bool_decide_eq_true, isDiskTypeObject_true. tauto.
Qed.

Lemma underlyingLoop_found (disk : Disk.t) (disks : list Disk.t) :
  forall (i idx : Z) (path : string),
    0 <= i ->
    (idx = -1 /\ path = "") \/ 0 <= idx ->
    0 <= (underlyingLoop disk i disks (idx, path)).1
    <-> 0 <= idx
        \/ Exists (fun d => underlies disk d /\ Disk.Path d <> "") disks.
Proof.
  induction disks as [| d disks IH]; intros i idx path Hi Hinv.
  - simpl. rewrite Exists_nil. tauto.
  - cbn [underlyingLoop]. rewrite Exists_cons.
    pose proof (line174_underlies disk d) as Hcond.
    destruct (bool_decide (Disk.Name d <> Disk.Name disk)
              && HasPrefix (Disk.Path disk) (Disk.Path d)
              && isDiskTypeObject (Disk.Type_ d)).
    + destruct (string_gt (Disk.Path d) path) eqn:Hgt.
      * rewrite IH by lia.
        assert (Disk.Path d <> "") by (intros E; rewrite E in Hgt;
          destruct path; discriminate).
        intuition lia.
      * rewrite IH by (try lia; exact Hinv).
        destruct Hinv as [[-> ->] | Hidx].
        -- assert (Disk.Path d = "").
           { destruct (string_dec (Disk.Path d) "") as [E | E]; [exact E |].
             apply string_gt_empty in E. congruence. }
           intuition lia.
        -- intuition lia.
    + rewrite IH by (try lia; exact Hinv).
      assert (~ underlies disk d) by (rewrite <- Hcond; discriminate).
      tauto.
Qed.

(** What the code decides: an underlying disk with an empty path does not
    count. *)
Lemma isDiskTypeEncryptedObject_true (disk : Disk.t) (disks : list Disk.t) :
  isDiskTypeEncryptedObject disk disks = true
  <-> Disk.Type_ disk = "encrypted"
      /\ exists d, d ∈ disks /\ underlies disk d /\ Disk.Path d <> "".
Proof.
  unfold isDiskTypeEncryptedObject.
  destruct (bool_decide (Disk.Type_ disk <> "encrypted")) eqn:Htype.
  - apply bool_decide_eq_true_1 in Htype. split; [discriminate | tauto].
  - apply bool_decide_eq_false_1 in Htype.
    assert (Henc : Disk.Type_ disk = "encrypted").
    { destruct (string_dec (Disk.Type_ disk) "encrypted"); tauto. }
    pose proof (underlyingLoop_found disk disks 0 (-1) "") as Hloop.
    destruct (underlyingLoop disk 0 disks (-1, "")) as [idx path].
    simpl in Hloop.
    rewrite Z.geb_le, Hloop by (try lia; left; split; reflexivity).
    rewrite Exists_exists. split.
    + intros [Hneg | (d & Hin & Hd)]; [lia |]. split; [exact Henc |].
      exists d. tauto.
    + intros (_ & d & Hin & Hd). right. exists d. tauto.
Qed.

End ClassifierFacts.



(** ** [buildEmbeddedLocationS3] *)

Section LocationFacts.
Import Backuper.
Variable path_Join : list string -> string.
Variable URL_Parse : URL.t -> string -> option URL.t.
Variable URL_String : URL.t -> string.

(** C4.  With an empty endpoint, the region us-east-1, the bucket mybucket,
    no forced path style and the sub-path backups, the URL the function
    renders has the host mybucket.s3.us-east-1.amazonaws.com and the path
    backups. *)
Theorem buildEmbeddedLocationS3_virtual_host (b : Backuper) :
  S3Config.Endpoint (Config.S3 (cfg b)) = "" ->
  S3Config.Region (Config.S3 (cfg b)) = "us-east-1" ->
  S3Config.Bucket (Config.S3 (cfg b)) = "mybucket" ->
  S3Config.ForcePathStyle (Config.S3 (cfg b)) = false ->
  S3Config.ObjectDiskPath (Config.S3 (cfg b)) = "backups" ->
  exists url,
    buildEmbeddedLocationS3_url path_Join URL_Parse b = Some url
    /\ buildEmbeddedLocationS3 path_Join URL_Parse URL_String b
       = Some (URL_String url)
    /\ URL.Host url = "mybucket.s3.us-east-1.amazonaws.com"
    /\ URL.Path url = "backups".
Proof.
  intros Hendpoint Hregion Hbucket Hstyle Hpath.
  unfold buildEmbeddedLocationS3, buildEmbeddedLocationS3_url.
  rewrite Hendpoint, Hregion, Hbucket, Hstyle, Hpath. cbn.
  destruct (S3Config.DisableSSL (Config.S3 (cfg b))); cbn;
    eexists; (split; [reflexivity |]); (split; [reflexivity |]);
    split; reflexivity.
Qed.
End LocationFacts.

Lemma buildEmbeddedLocationS3_virtual_host_witness :
  exists url,
    Backuper.buildEmbeddedLocationS3_url Batching.join_slash
      Locating.never_parses Diffing.backuper_ex = Some url
    /\ Backuper.buildEmbeddedLocationS3 Batching.join_slash
         Locating.never_parses Locating.render Diffing.backuper_ex
       = Some (Locating.render url)
    /\ Backuper.URL.Host url = "mybucket.s3.us-east-1.amazonaws.com"
    /\ Backuper.URL.Path url = "backups".
Proof.
  apply (buildEmbeddedLocationS3_virtual_host Batching.join_slash
           Locating.never_parses Locating.render Diffing.backuper_ex);
    reflexivity.
Defined.

(** ** [getTablesDiffFromLocal], [getTablesDiffFromRemote] *)

Section DiffFacts.
Import Backuper.
Variable path_Join : list string -> string.
Variable ReadBackupMetadataLocal :
  Backuper -> string -> orError BackupMetadata.t.
Variable getTableListByPatternLocal :
  Backuper -> string -> string -> bool -> list string ->
  orError (list TableMetadata.t).
Variable getTableListByPatternRemote :
  Backuper -> BackupMetadata.t -> string -> bool ->
  orError (list TableMetadata.t).

Local Abbreviation getTablesDiffFromLocal :=
  (getTablesDiffFromLocal path_Join ReadBackupMetadataLocal
                          getTableListByPatternLocal).
Local Abbreviation getTablesDiffFromRemote :=
  (getTablesDiffFromRemote getTableListByPatternRemote).

Lemma findBackup_None (name : string) (backupList : list Backup.t) :
  findBackup name backupList = None
  <-> forall backup, backup ∈ backupList -> Backup.BackupName backup <> name.
Proof.
  induction backupList as [| backup rest IH]; simpl.
  - split; [intros _ backup Hin; inversion Hin | reflexivity].
  - destruct (bool_decide (Backup.BackupName backup = name)) eqn:Hname.
    + apply bool_decide_eq_true_1 in Hname. split; [discriminate |].
      intros H. exfalso. apply (H backup); [left | exact Hname].
    + apply bool_decide_eq_false_1 in Hname. rewrite IH. split.
      * intros H backup' Hin. apply elem_of_cons in Hin as [-> | Hin];
          [exact Hname | apply H, Hin].
      * intros H backup' Hin. apply H. right. exact Hin.
Qed.

Lemma findBackup_Some (name : string) (backupList : list Backup.t)
  (m : BackupMetadata.t) :
  findBackup name backupList = Some m ->
  exists backup, backup ∈ backupList /\ Backup.BackupName backup = name
                 /\ Backup.BackupMetadata backup = m.
Proof.
  induction backupList as [| backup rest IH]; simpl; [discriminate |].
  destruct (bool_decide (Backup.BackupName backup = name)) eqn:Hname.
  - apply bool_decide_eq_true_1 in Hname. intros [= <-].
    exists backup. split; [left | split; [exact Hname | reflexivity]].
  - intros H. destruct (IH H) as (backup' & Hin & Hrest).
    exists backup'. split; [right; exact Hin | exact Hrest].
Qed.

Lemma remote_not_found (b : Backuper) (diffFromRemote tablePattern : string)
  (backupList : list Backup.t) :
  BackupDestination.BackupList (dst b) true diffFromRemote = Ok backupList ->
  (forall backup, backup ∈ backupList ->
                  Backup.BackupName backup <> diffFromRemote) ->
  getTablesDiffFromRemote b diffFromRemote tablePattern
  = (None, Some (Errorf (diffFromRemote +:+ " not found on remote storage"))).
Proof.
  intros Hlist Habsent. unfold Backuper.getTablesDiffFromRemote.
  rewrite Hlist. apply findBackup_None in Habsent. rewrite Habsent.
  reflexivity.
Qed.

(** C2.  When the listing of the remote backups holds no backup whose name
    is exactly the requested one, the method returns the nil map and the
    error "<name> not found on remote storage"; it does not return an empty
    map. *)
Theorem getTablesDiffFromRemote_not_found (b : Backuper)
  (diffFromRemote tablePattern : string) (backupList : list Backup.t) :
  BackupDestination.BackupList (dst b) true diffFromRemote = Ok backupList ->
  (forall backup, backup ∈ backupList ->
                  Backup.BackupName backup <> diffFromRemote) ->
  getTablesDiffFromRemote b diffFromRemote tablePattern
  = (None, Some (Errorf (diffFromRemote +:+ " not found on remote storage")))
  /\ (getTablesDiffFromRemote b diffFromRemote tablePattern).1 <> Some ∅.
Proof.
  intros Hlist Habsent.
  rewrite (remote_not_found b diffFromRemote tablePattern backupList
             Hlist Habsent).
  split; [reflexivity | discriminate].
Qed.

(** C7.  For both variants, a reference backup whose manifest lists no
    table gives the empty map and a nil error; a reference that is not
    found gives an error and the nil map. *)
Theorem getTablesDiff_zero_tables (b : Backuper)
  (diffFrom tablePattern : string) :
  (forall m,
      ReadBackupMetadataLocal b diffFrom = Ok m ->
      BackupMetadata.Tables m = [] ->
      getTablesDiffFromLocal b diffFrom tablePattern = (Some ∅, None))
  /\ (forall backupList,
         BackupDestination.BackupList (dst b) true diffFrom = Ok backupList ->
         (exists backup, backup ∈ backupList
                         /\ Backup.BackupName backup = diffFrom) ->
         (forall backup,
             backup ∈ backupList ->
             Backup.BackupName backup = diffFrom ->
             BackupMetadata.Tables (Backup.BackupMetadata backup) = []) ->
         getTablesDiffFromRemote b diffFrom tablePattern = (Some ∅, None))
  /\ (forall err,
         ReadBackupMetadataLocal b diffFrom = Err err ->
         getTablesDiffFromLocal b diffFrom tablePattern = (None, Some err))
  /\ (forall backupList,
         BackupDestination.BackupList (dst b) true diffFrom = Ok backupList ->
         (forall backup, backup ∈ backupList ->
                         Backup.BackupName backup <> diffFrom) ->
         getTablesDiffFromRemote b diffFrom tablePattern
         = (None, Some (Errorf (diffFrom +:+ " not found on remote storage")))).
Proof.
  repeat split.
  - intros m Hread Hzero. unfold Backuper.getTablesDiffFromLocal.
    rewrite Hread, Hzero. reflexivity.
  - intros backupList Hlist (backup & Hin & Hname) Hzero.
    unfold Backuper.getTablesDiffFromRemote. rewrite Hlist.
    destruct (findBackup diffFrom backupList) as [m |] eqn:Hfind.
    + destruct (findBackup_Some _ _ _ Hfind) as (backup' & Hin' & Hname' & <-).
      rewrite (Hzero backup' Hin' Hname'). reflexivity.
    + exfalso. apply (proj1 (findBackup_None _ _) Hfind backup Hin Hname).
  - intros err Hread. unfold Backuper.getTablesDiffFromLocal.
    rewrite Hread. reflexivity.
  - intros backupList. apply remote_not_found.
Qed.
End DiffFacts.

Lemma getTablesDiffFromRemote_not_found_witness :
  Diffing.fromRemote_ex "monthly"
  = (None, Some (Errorf "monthly not found on remote storage")).
Proof.
  apply (getTablesDiffFromRemote_not_found Diffing.listRemote_ex
           Diffing.backuper_ex "monthly" "*"
           [Backuper.Backup.mk Diffing.daily "";
            Backuper.Backup.mk Diffing.weekly ""]).
  - reflexivity.
  - intros backup Hin.
    apply elem_of_cons in Hin as [-> | Hin]; [discriminate |].
    apply elem_of_cons in Hin as [-> | Hin]; [discriminate |].
    inversion Hin.
Defined.

Lemma getTablesDiff_zero_tables_witness :
  Diffing.fromLocal_ex "weekly" = (Some ∅, None)
  /\ Diffing.fromRemote_ex "weekly" = (Some ∅, None).
Proof.
  destruct (getTablesDiff_zero_tables Batching.join_slash Diffing.readLocal_ex
              Diffing.listLocal_ex Diffing.listRemote_ex Diffing.backuper_ex
              "weekly" "*") as (Hlocal & Hremote & _).
  split.
  - apply (Hlocal Diffing.weekly); reflexivity.
  - apply (Hremote [Backuper.Backup.mk Diffing.daily "";
                    Backuper.Backup.mk Diffing.weekly ""]).
    + reflexivity.
    + exists (Backuper.Backup.mk Diffing.weekly "").
      split; [set_solver | reflexivity].
    + intros backup Hin Hname.
      apply elem_of_cons in Hin as [-> | Hin]; [discriminate |].
      apply elem_of_cons in Hin as [-> | Hin]; [reflexivity |].
      inversion Hin.
Defined.

(** * Further properties of the code *)

(** ** [separateParts]: shape of the batches *)



Section BatchShape.
Import Legacy Batching.
Variable path_Join : list string -> string.
Variable filepath_Join : string -> string -> string.
Variable fs : string -> node.
Variable basePath : string.
Variable maxSize : Z.

Local Abbreviation addFile := (addFile basePath maxSize).
Local Abbreviation walked :=
  (walkedFiles path_Join filepath_Join fs basePath).
Local Abbreviation separateParts :=
  (separateParts path_Join filepath_Join fs basePath).

Lemma addFile_later_nonempty l :
  result (fold_left addFile l (mkSep 0 [] [])) = []
  \/ (files (fold_left addFile l (mkSep 0 [] [])) <> []
      /\ Forall (fun batch => batch <> [])
                (tail (result (fold_left addFile l (mkSep 0 [] []))))).
Proof.
  induction l as [| f l IH] using rev_ind; [left; reflexivity |].
  rewrite fold_left_app. cbn [fold_left].
  set (st := fold_left addFile l (mkSep 0 [] [])) in *.
  unfold Batching.addFile.
  cbn [separateParts_walkFn IsRegular Size negb fst].
  destruct (add64 (size st) f.2 >? maxSize); cbn [size files result fst].
  - right. split; [simpl; discriminate |].
    destruct IH as [Hnil | [Hfiles Hrest]]; [rewrite Hnil; constructor |].
    destruct (result st) as [| first rest]; [constructor |].
    cbn [app tail] in *. apply Forall_app. split; [exact Hrest |].
    constructor; [exact Hfiles | constructor].
  - destruct IH as [Hnil | [Hfiles Hrest]]; [left; exact Hnil |].
    right. split; [| exact Hrest].
    destruct (files st); simpl; discriminate.
Qed.

(** X1.  Only the first batch can be empty: every batch after the first
    one holds at least one file, whatever the sizes and the limit. *)
Theorem separateParts_later_batches_nonempty (parts : list Part) :
  Forall (fun batch => batch <> []) (tail (separateParts parts maxSize).1).
Proof.
  unfold Legacy.separateParts. rewrite loop_walkedFiles. cbn [fst].
  pose proof (addFile_later_nonempty (walked parts)) as H.
  set (st := fold_left addFile _ _) in *.
  destruct (files st) as [| name names] eqn:Hfiles; cbn [length Nat.ltb Nat.leb].
  - destruct H as [Hnil | [Hne _]]; [rewrite Hnil; constructor | contradiction].
  - destruct H as [Hnil | [_ Hrest]]; [rewrite Hnil; constructor |].
    destruct (result st) as [| first rest]; [constructor |].
    cbn [app tail] in *. apply Forall_app. split; [exact Hrest |].
    constructor; [discriminate | constructor].
Qed.

Lemma addFile_all_fit l :
  fits l -> cumulative l <= maxSize ->
  fold_left addFile l (mkSep 0 [] [])
  = mkSep (cumulative l) (map (relative basePath) l) [].
Proof.
  induction l as [| f l IH] using rev_ind; intros Hfits Hmax;
    [reflexivity |].
  pose proof Hfits as [Hnn Hsum].
  apply Forall_app in Hnn as [Hnnl Hnnf]. apply Forall_inv in Hnnf.
  rewrite cumulative_app in Hsum, Hmax.
  assert (Hf : cumulative [f] = f.2) by (unfold cumulative; simpl; lia).
  pose proof (cumulative_nonneg _ Hnnl) as Hl0.
  rewrite fold_left_app, IH by (eauto using fits_app_l || lia).
  cbn [fold_left]. unfold Batching.addFile.
  cbn [separateParts_walkFn IsRegular Size negb fst size files result].
  assert (Hadd : add64 (cumulative l) f.2 = cumulative l + f.2).
  { apply wrap64_id. unfold int64. lia. }
  rewrite Hadd.
  destruct (cumulative l + f.2 >? maxSize) eqn:Hcmp; [lia |].
  cbn [size files result]. rewrite Hadd, cumulative_app, map_app, Hf.
  reflexivity.
Qed.

(** X2.  When the walked files (lengths not negative, fitting [int64])
    weigh together at most [maxSize], they all go, in walk order, into one
    single batch; when no regular file is walked there is no batch at
    all. *)
Theorem separateParts_single_batch (parts : list Part) :
  fits (walked parts) ->
  cumulative (walked parts) <= maxSize ->
  (separateParts parts maxSize).1
  = match walked parts with
    | [] => []
    | _ :: _ => [map (relative basePath) (walked parts)]
    end.
Proof.
  intros Hfits Hmax. unfold Legacy.separateParts.
  rewrite loop_walkedFiles, (addFile_all_fit _ Hfits Hmax).
  cbn [fst files result]. destruct (walked parts); reflexivity.
Qed.


(** Joining a name to a directory appends to the directory. *)
Hypothesis path_Join_extends :
  forall name, exists suffix, path_Join [basePath; name] = basePath +:+ suffix.
Hypothesis filepath_Join_extends :
  forall dir name, exists suffix, filepath_Join dir name = dir +:+ suffix.


End BatchShape.

Lemma separateParts_single_batch_witness :
  (Legacy.separateParts Batching.join_slash Batching.join2_slash
     Batching.fs_three_files "/b" [Legacy.mkPart "p"] 50).1
  = [["/p/a"; "/p/c"; "/p/d"]].
Proof.
  apply (separateParts_single_batch Batching.join_slash Batching.join2_slash
           Batching.fs_three_files "/b" 50 [Legacy.mkPart "p"]).
  - split; [repeat constructor; simpl; lia | vm_compute; reflexivity].
  - vm_compute. discriminate.
Defined.


(** ** [populateBackupShardField]: what the tables become *)

Section PopulateFacts.
Import Backuper Sharding ShardingMore.

Lemma shardList_assigned assignment tables l :
  shardList assignment (defaults tables) = (l, None) ->
  Forall2 (assigned assignment) tables l.
Proof.
  revert l. induction tables as [| tbl tables IH]; intros l; simpl.
  - intros [= <-]. constructor.
  - unfold assigned at 1, defaultType.
    destruct (Table.Skip tbl) eqn:Hskip; simpl.
    + destruct (shardList assignment (defaults tables)) as [rest' err].
      intros [= <- ->]. constructor; [| apply IH; reflexivity].
      unfold assigned. rewrite Hskip. reflexivity.
    + destruct (inShard assignment (Table.Database tbl) (Table.Name tbl))
        as [fullBackup | err] eqn:Hin; [| discriminate].
      destruct (shardList assignment (defaults tables)) as [rest' err].
      intros [= <- ->]. constructor; [| apply IH; reflexivity].
      unfold assigned. rewrite Hskip. exists fullBackup.
      split; [exact Hin |]. destruct fullBackup; reflexivity.
Qed.

Lemma overwritten_retyped tbl tbl' : overwritten tbl tbl' -> retyped tbl tbl'.
Proof.
  unfold overwritten, retyped, defaultType.
  intros [-> | [Hskip ->]]; simpl.
  - destruct (Table.Skip tbl); repeat split; congruence.
  - rewrite Hskip. repeat split; congruence.
Qed.


Variable shardFunc : Type.
Variable doesShard : string -> bool.
Variable shardFuncByName : string -> orError shardFunc.
Variable newReplicaDeterminer : shardFunc -> backupSharder.

Local Abbreviation populateBackupShardField :=
  (populateBackupShardField shardFunc doesShard shardFuncByName
                            newReplicaDeterminer).
Local Abbreviation sharderOf :=
  (sharderOf shardFuncByName newReplicaDeterminer).

(** The method with its two loops in closed form. *)
Lemma populate_closed_form (b : Backuper) (tables : list Table.t) :
  populateBackupShardField b tables
  = if negb (doesShard (Config.ShardedOperationMode (cfg b)))
    then (b, defaults tables, None)
    else
      match CanShardOperation (vers b) with
      | Some err => (b, defaults tables, Some err)
      | None =>
          match sharderOf b with
          | Err err => (b, defaults tables, Some err)
          | Ok (b1, s) =>
              match determineShards s with
              | Err err => (b1, defaults tables, Some err)
              | Ok assignment =>
                  (b1, (shardList assignment (defaults tables)).1,
                   (shardList assignment (defaults tables)).2)
              end
          end
      end.
Proof.
  unfold Backuper.populateBackupShardField, ShardingMore.sharderOf.
  rewrite defaultLoop_defaults.
  destruct (negb _); [reflexivity |].
  destruct (CanShardOperation (vers b)); [reflexivity |].
  destruct (match bs b with Some s => _ | None => _ end) as [[b1 s] | err];
    [| reflexivity].
  destruct (determineShards s) as [assignment | err]; [| reflexivity].
  rewrite shardLoop_shardList.
  destruct (shardList assignment (defaults tables)). reflexivity.
Qed.

Lemma sharderOf_keeps (b b1 : Backuper) (s : backupSharder) :
  sharderOf b = Ok (b1, s) ->
  bs b1 = Some s /\ cfg b1 = cfg b /\ vers b1 = vers b /\ dst b1 = dst b
  /\ DefaultDataPath b1 = DefaultDataPath b
  /\ (bs b <> None -> b1 = b).
Proof.
  unfold ShardingMore.sharderOf. destruct (bs b) as [s0 |] eqn:Hbs.
  - intros [= <- <-]. repeat split; auto.
  - destruct (shardFuncByName _) as [f | err]; [| discriminate].
    intros [= <- <-]. repeat split; auto. contradiction.
Qed.

(** X4.  When the sharded run succeeds, the sharder it used is kept in
    [b.bs], and under its assignment every skipped table is [None], every
    other table [Full] when the lookup says this replica holds it and
    schema-only when it says it does not. *)
Theorem populate_sharded_success (b b' : Backuper)
  (tables tables' : list Table.t) :
  doesShard (Config.ShardedOperationMode (cfg b)) = true ->
  populateBackupShardField b tables = (b', tables', None) ->
  exists s assignment,
    bs b' = Some s /\ determineShards s = Ok assignment
    /\ Forall2 (assigned assignment) tables tables'.
Proof.
  intros Hmode. rewrite populate_closed_form, Hmode. cbn [negb].
  destruct (CanShardOperation (vers b)); [discriminate |].
  destruct (sharderOf b) as [[b1 s] | err] eqn:Hs; [| discriminate].
  destruct (determineShards s) as [assignment | err] eqn:Hd; [| discriminate].
  destruct (shardList assignment (defaults tables)) as [l e] eqn:Hl.
  intros [= <- <- ->]. exists s, assignment.
  split; [apply (sharderOf_keeps _ _ _ Hs) |]. split; [exact Hd |].
  apply shardList_assigned, Hl.
Qed.

(** X5.  Whatever the method returns, nil or an error, it changes of a
    table nothing but the [BackupType], keeps the number and the order of
    the tables, and leaves [BackupType] equal to [None] exactly on the
    skipped tables; of the receiver it changes nothing but [bs]. *)
Theorem populate_retypes_only (b b' : Backuper)
  (tables tables' : list Table.t) (err : option error) :
  populateBackupShardField b tables = (b', tables', err) ->
  Forall2 retyped tables tables'
  /\ cfg b' = cfg b /\ vers b' = vers b /\ dst b' = dst b
  /\ DefaultDataPath b' = DefaultDataPath b.
Proof.
  rewrite populate_closed_form.
  assert (Hdef : Forall2 retyped tables (defaults tables)).
  { eapply Forall2_impl; [apply defaults_overwritten |].
    apply overwritten_retyped. }
  destruct (negb _).
  { intros [= <- <- <-]. auto. }
  destruct (CanShardOperation (vers b)).
  { intros [= <- <- <-]. auto. }
  destruct (sharderOf b) as [[b1 s] | e] eqn:Hs.
  2: { intros [= <- <- <-]. auto. }
  destruct (sharderOf_keeps _ _ _ Hs) as (_ & Hcfg & Hvers & Hdst & Hpath & _).
  destruct (determineShards s) as [assignment | e].
  2: { intros [= <- <- <-]. auto. }
  intros [= <- <- <-]. split; [| auto].
  eapply Forall2_impl; [apply shardList_overwritten |].
  apply overwritten_retyped.
Qed.

(** X6.  The [BackupType] the tables come with plays no part: two slices
    that differ in nothing else give the same receiver, the same tables
    and the same error. *)
Theorem populate_ignores_prior_types (b : Backuper)
  (tables1 tables2 : list Table.t) :
  map (Table.setBackupType ShardBackupFull) tables1
  = map (Table.setBackupType ShardBackupFull) tables2 ->
  populateBackupShardField b tables1 = populateBackupShardField b tables2.
Proof.
  intros Hsame.
  assert (Hdef : defaults tables1 = defaults tables2).
  { revert tables2 Hsame.
    induction tables1 as [| t1 tables1 IH]; intros [| t2 tables2];
      simpl; try discriminate; [reflexivity |].
    intros [= Hd Hn Hs Hrest]. rewrite (IH _ Hrest). f_equal.
    unfold Table.setBackupType, defaultType. rewrite Hd, Hn, Hs.
    reflexivity. }
  rewrite !populate_closed_form, Hdef. reflexivity.
Qed.

End PopulateFacts.

Lemma populate_sharded_success_witness :
  exists s assignment,
    Backuper.bs (Sharding.backuper_ex "table" None) = Some s
    /\ Backuper.determineShards s = Ok assignment
    /\ Forall2 (ShardingMore.assigned assignment) ShardingMore.tables_known
         [Backuper.Table.mk "db" "moved" false Backuper.ShardBackupSchema;
          Backuper.Table.mk "db" "hidden" true Backuper.ShardBackupNone;
          Backuper.Table.mk "db" "kept" false Backuper.ShardBackupFull].
Proof.
  apply (populate_sharded_success unit Sharding.doesShard_ex
           (fun _ => Err (Errorf "unknown policy"))
           (fun _ => Backuper.mkBackupSharder (Ok Sharding.assignment_ex))
           (Sharding.backuper_ex "table" None)
           (Sharding.backuper_ex "table" None) ShardingMore.tables_known);
    reflexivity.
Defined.

Lemma populate_retypes_only_witness :
  Forall2 ShardingMore.retyped Sharding.tables_ex
    [Backuper.Table.mk "db" "moved" false Backuper.ShardBackupSchema;
     Backuper.Table.mk "db" "hidden" true Backuper.ShardBackupNone;
     Backuper.Table.mk "db" "unknown" false Backuper.ShardBackupFull;
     Backuper.Table.mk "db" "kept" false Backuper.ShardBackupFull].
Proof.
  apply (populate_retypes_only unit Sharding.doesShard_ex
           (fun _ => Err (Errorf "unknown policy"))
           (fun _ => Backuper.mkBackupSharder (Ok Sharding.assignment_ex))
           (Sharding.backuper_ex "table" None)
           (Sharding.backuper_ex "table" None) Sharding.tables_ex _
           (Some (Errorf "table not found in shard assignment"))).
  reflexivity.
Defined.

Lemma populate_ignores_prior_types_witness :
  Sharding.populate_ex "table" None Sharding.tables_ex
  = Sharding.populate_ex "table" None
      (map (Backuper.Table.setBackupType Backuper.ShardBackupNone)
           Sharding.tables_ex).
Proof.
  apply (populate_ignores_prior_types unit Sharding.doesShard_ex
           (fun _ => Err (Errorf "unknown policy"))
           (fun _ => Backuper.mkBackupSharder (Ok Sharding.assignment_ex))
           (Sharding.backuper_ex "table" None)).
  reflexivity.
Defined.


(** X8.  A receiver that already holds a sharder (injected, or kept from
    an earlier call) is returned unchanged, and neither the policy name
    nor the making of a determiner is consulted: the result is the same
    under any [shardFuncByName] and [newReplicaDeterminer]. *)
Theorem populate_with_sharder_set (shardFunc shardFunc' : Type)
  (doesShard : string -> bool)
  (shardFuncByName : string -> orError shardFunc)
  (newReplicaDeterminer : shardFunc -> Backuper.backupSharder)
  (shardFuncByName' : string -> orError shardFunc')
  (newReplicaDeterminer' : shardFunc' -> Backuper.backupSharder)
  (b : Backuper.Backuper) (tables : list Backuper.Table.t) :
  Backuper.bs b <> None ->
  (Backuper.populateBackupShardField shardFunc doesShard shardFuncByName
     newReplicaDeterminer b tables).1.1 = b
  /\ Backuper.populateBackupShardField shardFunc doesShard shardFuncByName
       newReplicaDeterminer b tables
     = Backuper.populateBackupShardField shardFunc' doesShard shardFuncByName'
         newReplicaDeterminer' b tables.
Proof.
  intros Hbs. rewrite !populate_closed_form.
  unfold ShardingMore.sharderOf.
  destruct (Backuper.bs b) as [s |]; [| contradiction].
  split; [| reflexivity].
  destruct (negb _); [reflexivity |].
  destruct (Backuper.CanShardOperation (Backuper.vers b)); [reflexivity |].
  destruct (Backuper.determineShards s); reflexivity.
Qed.

Lemma populate_with_sharder_set_witness :
  (Sharding.populate_ex "table" None Sharding.tables_ex).1.1
  = Sharding.backuper_ex "table" None.
Proof.
  apply (populate_with_sharder_set unit unit Sharding.doesShard_ex
           (fun _ => Err (Errorf "unknown policy"))
           (fun _ => Backuper.mkBackupSharder (Ok Sharding.assignment_ex))
           (fun _ => Ok tt)
           (fun _ => Backuper.mkBackupSharder (Err (Errorf "no replicas")))
           (Sharding.backuper_ex "table" None) Sharding.tables_ex).
  discriminate.
Defined.

(** ** [isDiskTypeEncryptedObject]: the list as a set *)

Section ClassifierMore.
Import Backuper Classifier.

(** The answer only grows with the list: a disk found encrypted over
    an object disk stays so when disks are added to the list, in any
    place. *)
Theorem isDiskTypeEncryptedObject_monotone (disk : Disk.t)
  (disks disks' : list Disk.t) :
  (forall d, d ∈ disks -> d ∈ disks') ->
  isDiskTypeEncryptedObject disk disks = true ->
  isDiskTypeEncryptedObject disk disks' = true.
Proof.
  intros Hsub. rewrite !isDiskTypeEncryptedObject_true.
  intros (Henc & d & Hin & Hd). split; [exact Henc |].
  exists d. split; [apply Hsub, Hin | exact Hd].
Qed.

(** X9.  The order of the list and repetitions in it do not matter: two
    lists with the same disks give the same answer, although the loop
    keeps the index of one particular disk. *)
Theorem isDiskTypeEncryptedObject_same_disks (disk : Disk.t)
  (disks disks' : list Disk.t) :
  (forall d, d ∈ disks <-> d ∈ disks') ->
  isDiskTypeEncryptedObject disk disks
  = isDiskTypeEncryptedObject disk disks'.
Proof.
  intros Hsame.
  destruct (isDiskTypeEncryptedObject disk disks) eqn:H1;
    destruct (isDiskTypeEncryptedObject disk disks') eqn:H2;
    try reflexivity.
  - rewrite <- H2. symmetry.
    apply isDiskTypeEncryptedObject_true.
    apply isDiskTypeEncryptedObject_true in H1 as (Henc & d & Hin & Hd).
    split; [exact Henc |]. exists d. split; [apply Hsame, Hin | exact Hd].
  - rewrite <- H1.
    apply isDiskTypeEncryptedObject_true.
    apply isDiskTypeEncryptedObject_true in H2 as (Henc & d & Hin & Hd).
    split; [exact Henc |]. exists d. split; [apply Hsame, Hin | exact Hd].
Qed.

(** X10.  A disk is never its own underlying disk: when every disk of the
    list bears the name of [disk] (the disk alone, say), the answer is
    false, also for an encrypted disk whose type were an object type. *)
Theorem isDiskTypeEncryptedObject_not_itself (disk : Disk.t)
  (disks : list Disk.t) :
  (forall d, d ∈ disks -> Disk.Name d = Disk.Name disk) ->
  isDiskTypeEncryptedObject disk disks = false.
Proof.
  intros Hnames.
  destruct (isDiskTypeEncryptedObject disk disks) eqn:H; [| reflexivity].
  apply isDiskTypeEncryptedObject_true in H
    as (_ & d & Hin & (Hname & _) & _).
  exfalso. apply Hname, Hnames, Hin.
Qed.
End ClassifierMore.

Lemma isDiskTypeEncryptedObject_monotone_witness :
  Backuper.isDiskTypeEncryptedObject Classifier.disk_encrypted
    [Classifier.disk_default; Classifier.disk_encrypted; Classifier.disk_s3]
  = true.
Proof.
  apply (isDiskTypeEncryptedObject_monotone Classifier.disk_encrypted
           [Classifier.disk_s3]).
  - intros d Hin. apply list_elem_of_singleton in Hin as ->.
    do 2 right. left.
  - reflexivity.
Defined.

Lemma isDiskTypeEncryptedObject_same_disks_witness :
  Backuper.isDiskTypeEncryptedObject Classifier.disk_encrypted
    [Classifier.disk_s3; Classifier.disk_default]
  = Backuper.isDiskTypeEncryptedObject Classifier.disk_encrypted
      [Classifier.disk_default; Classifier.disk_s3; Classifier.disk_default].
Proof.
  apply (isDiskTypeEncryptedObject_same_disks Classifier.disk_encrypted).
  intros d. rewrite !elem_of_cons, !elem_of_nil. tauto.
Defined.

Lemma isDiskTypeEncryptedObject_not_itself_witness :
  Backuper.isDiskTypeEncryptedObject Classifier.disk_encrypted
    [Classifier.disk_encrypted] = false.
Proof.
  apply (isDiskTypeEncryptedObject_not_itself Classifier.disk_encrypted).
  intros d Hin. apply list_elem_of_singleton in Hin as ->. reflexivity.
Defined.

(** ** [buildEmbeddedLocationS3]: the other branches *)

Section LocationMore.
Import Backuper.
Variable path_Join : list string -> string.
Variable URL_Parse : URL.t -> string -> option URL.t.
Variable URL_String : URL.t -> string.

Local Abbreviation s3url := (buildEmbeddedLocationS3_url path_Join URL_Parse).

(** The scheme the function starts from and ends with when nothing of the
    endpoint overrides it. *)
Local Abbreviation schemeOf b :=
  (if S3Config.DisableSSL (Config.S3 (cfg b)) then "http" else "https").

(** X11.  Virtual-host style in general: with no endpoint, a bucket and no
    forced path style, the host is [<bucket>.s3.<region>.amazonaws.com],
    also for an empty region, and the path is the sub-path alone, without
    the bucket. *)
Theorem buildEmbeddedLocationS3_bucket_host (b : Backuper) :
  S3Config.Endpoint (Config.S3 (cfg b)) = "" ->
  S3Config.Bucket (Config.S3 (cfg b)) <> "" ->
  S3Config.ForcePathStyle (Config.S3 (cfg b)) = false ->
  s3url b
  = Some (URL.mk (schemeOf b) ""
            (S3Config.Bucket (Config.S3 (cfg b)) +:+ "." +:+ "s3."
             +:+ S3Config.Region (Config.S3 (cfg b)) +:+ ".amazonaws.com")
            (S3Config.ObjectDiskPath (Config.S3 (cfg b))) "" "" "").
Proof.
  intros Hendpoint Hbucket Hstyle. unfold buildEmbeddedLocationS3_url.
  rewrite Hendpoint, Hstyle. cbn -[String.append].
  rewrite andb_false_r, (bool_decide_eq_true_2 _ Hbucket).
  destruct (S3Config.DisableSSL (Config.S3 (cfg b))); reflexivity.
Qed.

(** X12.  Path style: with no endpoint, a region and the forced path
    style, the host is [s3.<region>.amazonaws.com] and the bucket is the
    first element of the path. *)
Theorem buildEmbeddedLocationS3_path_style (b : Backuper) :
  S3Config.Endpoint (Config.S3 (cfg b)) = "" ->
  S3Config.Region (Config.S3 (cfg b)) <> "" ->
  S3Config.ForcePathStyle (Config.S3 (cfg b)) = true ->
  s3url b
  = Some (URL.mk (schemeOf b) ""
            ("s3." +:+ S3Config.Region (Config.S3 (cfg b))
             +:+ ".amazonaws.com")
            (path_Join [S3Config.Bucket (Config.S3 (cfg b));
                        S3Config.ObjectDiskPath (Config.S3 (cfg b))])
            "" "" "").
Proof.
  intros Hendpoint Hregion Hstyle. unfold buildEmbeddedLocationS3_url.
  rewrite Hendpoint, Hstyle. cbn -[String.append].
  rewrite (bool_decide_eq_true_2 _ Hregion). cbn -[String.append].
  assert (Hhost : "s3." +:+ S3Config.Region (Config.S3 (cfg b))
                  +:+ ".amazonaws.com" <> "") by discriminate.
  rewrite andb_false_r.
  destruct (S3Config.DisableSSL (Config.S3 (cfg b))); reflexivity.
Qed.

(** X13.  An endpoint that does not begin with "http" is taken as the host
    as it stands, the path is bucket and sub-path joined, and neither the
    region nor the path style plays a part. *)
Theorem buildEmbeddedLocationS3_plain_endpoint (b : Backuper) :
  S3Config.Endpoint (Config.S3 (cfg b)) <> "" ->
  HasPrefix (S3Config.Endpoint (Config.S3 (cfg b))) "http" = false ->
  s3url b
  = Some (URL.mk (schemeOf b) ""
            (S3Config.Endpoint (Config.S3 (cfg b)))
            (path_Join [S3Config.Bucket (Config.S3 (cfg b));
                        S3Config.ObjectDiskPath (Config.S3 (cfg b))])
            "" "" "").
Proof.
  intros Hendpoint Hplain. unfold buildEmbeddedLocationS3_url.
  rewrite Hplain. cbn -[String.append bool_decide].
  destruct (S3Config.DisableSSL (Config.S3 (cfg b)));
    cbn -[String.append bool_decide];
    rewrite !(bool_decide_eq_false_2 _ Hendpoint); reflexivity.
Qed.

(** X14.  The function panics exactly when the endpoint begins with
    "http" and does not parse: the error of [Parse] is dropped and the nil
    pointer it comes with is dereferenced. *)
Theorem buildEmbeddedLocationS3_panics_iff (b : Backuper) :
  buildEmbeddedLocationS3 path_Join URL_Parse URL_String b = None
  <-> HasPrefix (S3Config.Endpoint (Config.S3 (cfg b))) "http" = true
      /\ URL_Parse (URL.setScheme "https" URL.zero)
                   (S3Config.Endpoint (Config.S3 (cfg b))) = None.
Proof.
  unfold buildEmbeddedLocationS3, buildEmbeddedLocationS3_url.
  destruct (HasPrefix (S3Config.Endpoint (Config.S3 (cfg b))) "http").
  - destruct (URL_Parse _ _) as [newUrl |]; cbn -[String.append].
    + split; [discriminate | intros [_ H]; discriminate].
    + split; [split; reflexivity | reflexivity].
  - cbn -[String.append]. split; [discriminate | intros [H _]; discriminate].
Qed.

(** X15.  An endpoint that begins with "http" and parses to a URL with a
    host gives that URL, whatever its other fields, with the path replaced
    by bucket and sub-path joined and, under [DisableSSL], the scheme
    replaced by "http". *)
Theorem buildEmbeddedLocationS3_parsed_endpoint (b : Backuper)
  (newUrl : URL.t) :
  HasPrefix (S3Config.Endpoint (Config.S3 (cfg b))) "http" = true ->
  URL_Parse (URL.setScheme "https" URL.zero)
            (S3Config.Endpoint (Config.S3 (cfg b))) = Some newUrl ->
  URL.Host newUrl <> "" ->
  s3url b
  = Some (URL.setPath
            (path_Join [S3Config.Bucket (Config.S3 (cfg b));
                        S3Config.ObjectDiskPath (Config.S3 (cfg b))])
            (if S3Config.DisableSSL (Config.S3 (cfg b))
             then URL.setScheme "http" newUrl else newUrl)).
Proof.
  intros Hhttp Hparse Hhost. unfold buildEmbeddedLocationS3_url.
  rewrite Hhttp, Hparse. cbn -[String.append bool_decide].
  destruct (S3Config.DisableSSL (Config.S3 (cfg b)));
    cbn -[String.append bool_decide];
    rewrite !(bool_decide_eq_false_2 _ Hhost); reflexivity.
Qed.
End LocationMore.

Lemma buildEmbeddedLocationS3_bucket_host_witness :
  Backuper.buildEmbeddedLocationS3_url Batching.join_slash
    Locating.never_parses
    (LocatingMore.backuper_s3
       (Backuper.S3Config.mk "" "logs" "shard1" "" true false))
  = Some (Backuper.URL.mk "http" "" "logs.s3..amazonaws.com" "shard1"
            "" "" "").
Proof.
  apply (buildEmbeddedLocationS3_bucket_host Batching.join_slash
           Locating.never_parses
           (LocatingMore.backuper_s3
              (Backuper.S3Config.mk "" "logs" "shard1" "" true false)));
    [reflexivity | discriminate | reflexivity].
Defined.

Lemma buildEmbeddedLocationS3_path_style_witness :
  Backuper.buildEmbeddedLocationS3_url Batching.join_slash
    Locating.never_parses
    (LocatingMore.backuper_s3
       (Backuper.S3Config.mk "" "logs" "shard1" "eu-west-1" false true))
  = Some (Backuper.URL.mk "https" "" "s3.eu-west-1.amazonaws.com"
            "logs/shard1" "" "" "").
Proof.
  apply (buildEmbeddedLocationS3_path_style Batching.join_slash
           Locating.never_parses
           (LocatingMore.backuper_s3
              (Backuper.S3Config.mk "" "logs" "shard1" "eu-west-1" false true)));
    [reflexivity | discriminate | reflexivity].
Defined.

Lemma buildEmbeddedLocationS3_plain_endpoint_witness :
  Backuper.buildEmbeddedLocationS3_url Batching.join_slash
    Locating.never_parses
    (LocatingMore.backuper_s3
       (Backuper.S3Config.mk "minio:9000" "logs" "shard1" "eu-west-1"
                             false false))
  = Some (Backuper.URL.mk "https" "" "minio:9000" "logs/shard1" "" "" "").
Proof.
  apply (buildEmbeddedLocationS3_plain_endpoint Batching.join_slash
           Locating.never_parses
           (LocatingMore.backuper_s3
              (Backuper.S3Config.mk "minio:9000" "logs" "shard1" "eu-west-1"
                                    false false)));
    [discriminate | reflexivity].
Defined.

Lemma buildEmbeddedLocationS3_panics_iff_witness :
  Backuper.buildEmbeddedLocationS3 Batching.join_slash Locating.never_parses
    Locating.render
    (LocatingMore.backuper_s3
       (Backuper.S3Config.mk "http://[::1" "logs" "shard1" "eu-west-1"
                             false false))
  = None.
Proof.
  apply (buildEmbeddedLocationS3_panics_iff Batching.join_slash
           Locating.never_parses Locating.render).
  split; reflexivity.
Defined.

Lemma buildEmbeddedLocationS3_parsed_endpoint_witness :
  Backuper.buildEmbeddedLocationS3_url Batching.join_slash
    LocatingMore.parse_minio
    (LocatingMore.backuper_s3
       (Backuper.S3Config.mk "http://minio:9000" "logs" "shard1" "eu-west-1"
                             false true))
  = Some (Backuper.URL.mk "http" "" "minio:9000" "logs/shard1" "" "" "").
Proof.
  apply (buildEmbeddedLocationS3_parsed_endpoint Batching.join_slash
           LocatingMore.parse_minio
           (LocatingMore.backuper_s3
              (Backuper.S3Config.mk "http://minio:9000" "logs" "shard1"
                                    "eu-west-1" false true))
           (Backuper.URL.mk "http" "" "minio:9000" "" "" "" ""));
    [reflexivity | reflexivity | discriminate].
Defined.

(** ** The diff maps *)

Section DiffMore.
Import Backuper DiffingMore.
Variable path_Join : list string -> string.
Variable ReadBackupMetadataLocal :
  Backuper -> string -> orError BackupMetadata.t.
Variable getTableListByPatternLocal :
  Backuper -> string -> string -> bool -> list string ->
  orError (list TableMetadata.t).
Variable getTableListByPatternRemote :
  Backuper -> BackupMetadata.t -> string -> bool ->
  orError (list TableMetadata.t).

Local Abbreviation getTablesDiffFromLocal :=
  (getTablesDiffFromLocal path_Join ReadBackupMetadataLocal
                          getTableListByPatternLocal).
Local Abbreviation getTablesDiffFromRemote :=
  (getTablesDiffFromRemote getTableListByPatternRemote).

Lemma fillDiff_snoc (l : list TableMetadata.t) (t : TableMetadata.t)
  (m : DiffMap) :
  fillDiff (l ++ [t]) m = <[titleOf t := t]> (fillDiff l m).
Proof. unfold fillDiff. rewrite fold_left_app. reflexivity. Qed.

Lemma fillDiff_lookup (l : list TableMetadata.t) (k : TableTitle.t) :
  fillDiff l ∅ !! k = last (titled k l).
Proof.
  induction l as [| t l IH] using rev_ind.
  - apply lookup_empty.
  - rewrite fillDiff_snoc. unfold titled in *.
    rewrite filter_app, filter_cons, filter_nil.
    destruct (decide (titleOf t = k)) as [Hk | Hk].
    + rewrite last_snoc, Hk. apply lookup_insert_eq.
    + rewrite app_nil_r, lookup_insert_ne by exact Hk. exact IH.
Qed.

Lemma fillDiff_keys (l : list TableMetadata.t) (k : TableTitle.t)
  (v : TableMetadata.t) :
  fillDiff l ∅ !! k = Some v -> titleOf v = k /\ v ∈ l.
Proof.
  rewrite fillDiff_lookup. intros Hlast.
  apply last_Some_elem_of in Hlast.
  apply list_elem_of_filter in Hlast. tauto.
Qed.

(** X16.  Both variants return either a map and no error, or an error and
    the nil map, never both and never neither. *)
Theorem getTablesDiff_map_xor_error (b : Backuper)
  (diffFrom tablePattern : string) :
  ((getTablesDiffFromLocal b diffFrom tablePattern).1 = None
   <-> (getTablesDiffFromLocal b diffFrom tablePattern).2 <> None)
  /\ ((getTablesDiffFromRemote b diffFrom tablePattern).1 = None
      <-> (getTablesDiffFromRemote b diffFrom tablePattern).2 <> None).
Proof.
  unfold Backuper.getTablesDiffFromLocal, Backuper.getTablesDiffFromRemote.
  split.
  - destruct (ReadBackupMetadataLocal b diffFrom) as [m | e];
      [| split; [discriminate | reflexivity]].
    destruct (bool_decide _);
      [destruct (getTableListByPatternLocal _ _ _ _ _) |];
      simpl; split; congruence.
  - destruct (BackupDestination.BackupList (dst b) true diffFrom)
      as [backupList | e]; [| split; [discriminate | reflexivity]].
    destruct (findBackup diffFrom backupList) as [m |];
      [| split; [discriminate | reflexivity]].
    destruct (bool_decide _);
      [destruct (getTableListByPatternRemote _ _ _ _) |];
      simpl; split; congruence.
Qed.

(** X17.  In the map either variant returns, every entry is filed under
    the database and the table of its own metadata. *)
Theorem getTablesDiff_keys_match (b : Backuper)
  (diffFrom tablePattern : string) (m : DiffMap) (err : option error)
  (k : TableTitle.t) (v : TableMetadata.t) :
  getTablesDiffFromLocal b diffFrom tablePattern = (Some m, err)
  \/ getTablesDiffFromRemote b diffFrom tablePattern = (Some m, err) ->
  m !! k = Some v ->
  TableTitle.Database k = TableMetadata.Database v
  /\ TableTitle.Table k = TableMetadata.Table v.
Proof.
  assert (Hfill : forall l, m = fillDiff l ∅ -> m !! k = Some v ->
            TableTitle.Database k = TableMetadata.Database v
            /\ TableTitle.Table k = TableMetadata.Table v).
  { intros l -> Hk. apply fillDiff_keys in Hk as [<- _]. split; reflexivity. }
  assert (Hempty : m = ∅ -> m !! k = Some v ->
            TableTitle.Database k = TableMetadata.Database v
            /\ TableTitle.Table k = TableMetadata.Table v).
  { intros -> Hk. rewrite lookup_empty in Hk. discriminate. }
  unfold Backuper.getTablesDiffFromLocal, Backuper.getTablesDiffFromRemote.
  intros [H | H].
  - destruct (ReadBackupMetadataLocal b diffFrom) as [meta | e];
      [| discriminate].
    destruct (bool_decide _).
    + destruct (getTableListByPatternLocal _ _ _ _ _) as [l | e];
        [| discriminate].
      injection H as H _. apply (Hfill l). symmetry. exact H.
    + injection H as H _. apply Hempty. symmetry. exact H.
  - destruct (BackupDestination.BackupList (dst b) true diffFrom)
      as [backupList | e]; [| discriminate].
    destruct (findBackup diffFrom backupList) as [meta |]; [| discriminate].
    destruct (bool_decide _).
    + destruct (getTableListByPatternRemote _ _ _ _) as [l | e];
        [| discriminate].
      injection H as H _. apply (Hfill l). symmetry. exact H.
    + injection H as H _. apply Hempty. symmetry. exact H.
Qed.

(** X18.  When the reference backup lists tables and the listing by
    pattern answers [l], the remote variant returns the map that holds,
    under each title, the last table of [l] bearing it: every table of [l]
    has its title in the map, and of two tables with one title the later
    one stays. *)
Theorem getTablesDiffFromRemote_last_wins (b : Backuper)
  (diffFromRemote tablePattern : string) (backupList : list Backup.t)
  (meta : BackupMetadata.t) (l : list TableMetadata.t) :
  BackupDestination.BackupList (dst b) true diffFromRemote = Ok backupList ->
  findBackup diffFromRemote backupList = Some meta ->
  BackupMetadata.Tables meta <> [] ->
  getTableListByPatternRemote b meta tablePattern false = Ok l ->
  exists m : DiffMap,
    getTablesDiffFromRemote b diffFromRemote tablePattern = (Some m, None)
    /\ (forall k, m !! k = last (titled k l))
    /\ (forall t, t ∈ l -> is_Some (m !! titleOf t)).
Proof.
  intros Hlist Hfind Htables Hl.
  unfold Backuper.getTablesDiffFromRemote. rewrite Hlist, Hfind.
  rewrite bool_decide_eq_true_2
    by (destruct (BackupMetadata.Tables meta); [contradiction | discriminate]).
  rewrite Hl. exists (fillDiff l ∅). split; [reflexivity |].
  split; [apply fillDiff_lookup |].
  intros t Hin. rewrite fillDiff_lookup.
  assert (Hne : titled (titleOf t) l <> []).
  { intros Hnil. assert (Ht : t ∈ titled (titleOf t) l).
    { apply list_elem_of_filter. split; [reflexivity | exact Hin]. }
    rewrite Hnil in Ht. inversion Ht. }
  destruct (titled (titleOf t) l) as [| x xs] using rev_ind;
    [contradiction |].
  rewrite last_snoc. eexists. reflexivity.
Qed.

Lemma findBackup_first_match (diffFromRemote : string)
  (before after : list Backup.t) (backup : Backup.t) :
  (forall earlier, earlier ∈ before ->
                   Backup.BackupName earlier <> diffFromRemote) ->
  Backup.BackupName backup = diffFromRemote ->
  findBackup diffFromRemote (before ++ backup :: after)
  = Some (Backup.BackupMetadata backup).
Proof.
  intros Hbefore Hname.
  induction before as [| earlier before IH]; simpl.
  - rewrite bool_decide_eq_true_2 by exact Hname. reflexivity.
  - rewrite bool_decide_eq_false_2 by (apply Hbefore; left).
    apply IH. intros e He. apply Hbefore. right. exact He.
Qed.
End DiffMore.

Section DiffFirst.
Import Backuper DiffingMore.
Variable getTableListByPatternRemote :
  Backuper -> BackupMetadata.t -> string -> bool ->
  orError (list TableMetadata.t).

(** X19.  Of several remote backups bearing the requested name the first
    one of the list is the reference: the result is what its metadata
    gives, whatever follows it in the list. *)
Theorem getTablesDiffFromRemote_first_match (b : Backuper)
  (diffFromRemote tablePattern : string) (before after : list Backup.t)
  (backup : Backup.t) :
  BackupDestination.BackupList (dst b) true diffFromRemote
  = Ok (before ++ backup :: after) ->
  (forall earlier, earlier ∈ before ->
                   Backup.BackupName earlier <> diffFromRemote) ->
  Backup.BackupName backup = diffFromRemote ->
  getTablesDiffFromRemote getTableListByPatternRemote b diffFromRemote
    tablePattern
  = match BackupMetadata.Tables (Backup.BackupMetadata backup) with
    | [] => (Some ∅, None)
    | _ :: _ =>
        match getTableListByPatternRemote b (Backup.BackupMetadata backup)
                tablePattern false with
        | Err err => (None, Some err)
        | Ok l => (Some (fillDiff l ∅), None)
        end
    end.
Proof.
  intros Hlist Hbefore Hname. unfold Backuper.getTablesDiffFromRemote.
  rewrite Hlist, (findBackup_first_match _ _ _ _ Hbefore Hname).
  destruct (BackupMetadata.Tables (Backup.BackupMetadata backup));
    reflexivity.
Qed.
End DiffFirst.

Lemma getTablesDiff_keys_match_witness :
  Backuper.TableTitle.Database (Backuper.TableTitle.mk "db" "events")
  = Backuper.TableMetadata.Database
      (Backuper.TableMetadata.mk "db" "events" "")
  /\ Backuper.TableTitle.Table (Backuper.TableTitle.mk "db" "events")
     = Backuper.TableMetadata.Table
         (Backuper.TableMetadata.mk "db" "events" "").
Proof.
  apply (getTablesDiff_keys_match Batching.join_slash Diffing.readLocal_ex
           Diffing.listLocal_ex Diffing.listRemote_ex Diffing.backuper_ex
           "daily" "*"
           (Backuper.fillDiff [Backuper.TableMetadata.mk "db" "events" ""] ∅)
           None).
  - right. reflexivity.
  - apply lookup_insert_eq.
Defined.

Lemma getTablesDiffFromRemote_last_wins_witness :
  exists m : gmap Backuper.TableTitle.t Backuper.TableMetadata.t,
    Backuper.getTablesDiffFromRemote DiffingMore.listRemote_twice
      Diffing.backuper_ex "daily" "*" = (Some m, None)
    /\ m !! Backuper.TableTitle.mk "db" "events"
       = Some (Backuper.TableMetadata.mk "db" "events" "second").
Proof.
  destruct (getTablesDiffFromRemote_last_wins DiffingMore.listRemote_twice
              Diffing.backuper_ex "daily" "*"
              [Backuper.Backup.mk Diffing.daily "";
               Backuper.Backup.mk Diffing.weekly ""]
              Diffing.daily
              [Backuper.TableMetadata.mk "db" "events" "first";
               Backuper.TableMetadata.mk "db" "users" "only";
               Backuper.TableMetadata.mk "db" "events" "second"])
    as (m & Hm & Hlast & _);
    [reflexivity | reflexivity | discriminate | reflexivity |].
  exists m. split; [exact Hm |]. rewrite Hlast. reflexivity.
Defined.

Lemma getTablesDiffFromRemote_first_match_witness :
  Backuper.getTablesDiffFromRemote Diffing.listRemote_ex
    DiffingMore.twice_weekly "weekly" "*"
  = (Some (Backuper.fillDiff [Backuper.TableMetadata.mk "db" "events" ""] ∅),
     None).
Proof.
  apply (getTablesDiffFromRemote_first_match Diffing.listRemote_ex
           DiffingMore.twice_weekly "weekly" "*"
           [Backuper.Backup.mk Diffing.daily ""]
           [Backuper.Backup.mk Diffing.weekly ""]
           (Backuper.Backup.mk DiffingMore.weekly_old "")).
  - reflexivity.
  - intros earlier Hin. apply list_elem_of_singleton in Hin as ->.
    discriminate.
  - reflexivity.
Defined.

(** ** The remaining methods of [backuper.go] *)

Section EmbeddedFacts.
Import Backuper BackuperMore.
Variable path_Join : list string -> string.
Variable URL_Parse : URL.t -> string -> option URL.t.
Variable URL_String : URL.t -> string.
Variable ApplyMacros : string -> string * option error.
Variable Getenv : string -> string.

Local Abbreviation applyMacros := (applyMacrosToObjectDiskPath ApplyMacros).
Local Abbreviation gcsurl := (buildEmbeddedLocationGCS_url path_Join URL_Parse).
Local Abbreviation location :=
  (getEmbeddedBackupLocation path_Join URL_Parse URL_String ApplyMacros
                             Getenv).

(** [getObjectDiskPath] fails exactly when the remote storage is
    none of s3, azblob and gcs. *)
Theorem getObjectDiskPath_supported (r : Receiver.t) :
  (exists path, getObjectDiskPath r = Ok path)
  <-> Receiver.RemoteStorage r = "s3" \/ Receiver.RemoteStorage r = "azblob"
      \/ Receiver.RemoteStorage r = "gcs".
Proof.
  unfold getObjectDiskPath.
  destruct (bool_decide (Receiver.RemoteStorage r = "s3")) eqn:Hs3.
  { apply bool_decide_eq_true_1 in Hs3. split; [auto | eauto]. }
  destruct (bool_decide (Receiver.RemoteStorage r = "azblob")) eqn:Haz.
  { apply bool_decide_eq_true_1 in Haz. split; [auto | eauto]. }
  destruct (bool_decide (Receiver.RemoteStorage r = "gcs")) eqn:Hgcs.
  { apply bool_decide_eq_true_1 in Hgcs. split; [auto | eauto]. }
  apply bool_decide_eq_false_1 in Hs3, Haz, Hgcs.
  split; [intros [path H]; discriminate | tauto].
Qed.

Lemma applyMacros_rewrites (r : Receiver.t) (path : string) :
  getObjectDiskPath r = Ok path ->
  getObjectDiskPath (applyMacros r).1 = Ok (ApplyMacros path).1
  /\ (applyMacros r).2 = (ApplyMacros path).2.
Proof.
  unfold getObjectDiskPath, BackuperMore.applyMacrosToObjectDiskPath,
    Receiver.RemoteStorage, Receiver.S3.
  destruct (bool_decide (_ = "s3")) eqn:Hs3.
  { intros [= <-]. destruct (ApplyMacros _) as [v err]. cbn.
    rewrite Hs3. split; reflexivity. }
  destruct (bool_decide (_ = "azblob")) eqn:Haz.
  { intros [= <-].
    destruct (bool_decide (_ = "gcs")) eqn:Hgcs.
    { apply bool_decide_eq_true_1 in Haz, Hgcs. congruence. }
    destruct (ApplyMacros _) as [v err]. cbn. rewrite Hs3, Haz.
    split; reflexivity. }
  destruct (bool_decide (_ = "gcs")) eqn:Hgcs; [| discriminate].
  intros [= <-]. destruct (ApplyMacros _) as [v err]. cbn.
  rewrite Hs3, Haz, Hgcs. split; reflexivity.
Qed.

(** X20.  After [applyMacrosToObjectDiskPath] the object disk path that
    [getObjectDiskPath] returns is what [ApplyMacros] made of the path
    configured for the provider in use, also when the expansion failed,
    and the error of the method is the error of that expansion. *)
Theorem applyMacros_then_getObjectDiskPath (r : Receiver.t) (path : string) :
  getObjectDiskPath r = Ok path ->
  getObjectDiskPath (applyMacros r).1 = Ok (ApplyMacros path).1
  /\ (applyMacros r).2 = (ApplyMacros path).2.
Proof.
  unfold getObjectDiskPath, BackuperMore.applyMacrosToObjectDiskPath,
    Receiver.RemoteStorage, Receiver.S3.
  destruct (bool_decide (_ = "s3")) eqn:Hs3.
  { intros [= <-]. destruct (ApplyMacros _) as [v err]. cbn.
    rewrite Hs3. split; reflexivity. }
  destruct (bool_decide (_ = "azblob")) eqn:Haz.
  { intros [= <-].
    destruct (bool_decide (_ = "gcs")) eqn:Hgcs.
    { apply bool_decide_eq_true_1 in Haz, Hgcs. congruence. }
    destruct (ApplyMacros _) as [v err]. cbn. rewrite Hs3, Haz.
    split; reflexivity. }
  destruct (bool_decide (_ = "gcs")) eqn:Hgcs; [| discriminate].
  intros [= <-]. destruct (ApplyMacros _) as [v err]. cbn.
  rewrite Hs3, Haz, Hgcs. split; reflexivity.
Qed.

Lemma applyMacros_unsupported (r : Receiver.t) :
  Receiver.RemoteStorage r <> "s3" -> Receiver.RemoteStorage r <> "gcs" ->
  Receiver.RemoteStorage r <> "azblob" ->
  applyMacros r = (r, None).
Proof.
  intros Hs3 Hgcs Haz. unfold BackuperMore.applyMacrosToObjectDiskPath.
  rewrite !bool_decide_eq_false_2 by assumption. reflexivity.
Qed.

(** With an embedded backup disk configured the location is
    [Disk('<disk>','<backup>')] whatever the remote storage is: no macro
    is applied, no URL built, no key looked up, and the configuration
    stays as it was. *)
Theorem getEmbeddedBackupLocation_disk (r : Receiver.t) (backupName : string) :
  ClickHouseConfig.EmbeddedBackupDisk (Receiver.ClickHouse r) <> "" ->
  location r backupName
  = (r, Some (Ok ("Disk('"
                  +:+ ClickHouseConfig.EmbeddedBackupDisk (Receiver.ClickHouse r)
                  +:+ "','" +:+ backupName +:+ "')"))).
Proof.
  intros Hdisk. unfold BackuperMore.getEmbeddedBackupLocation.
  rewrite bool_decide_eq_true_2 by exact Hdisk. reflexivity.
Qed.

(** X21.  Without an embedded backup disk and with a remote storage that
    is none of s3, gcs and azblob, the method returns the error that names
    the storage and leaves the configuration as it was. *)
Theorem getEmbeddedBackupLocation_unsupported (r : Receiver.t)
  (backupName : string) :
  ClickHouseConfig.EmbeddedBackupDisk (Receiver.ClickHouse r) = "" ->
  Receiver.RemoteStorage r <> "s3" -> Receiver.RemoteStorage r <> "gcs" ->
  Receiver.RemoteStorage r <> "azblob" ->
  location r backupName
  = (r, Some (Err (Errorf
       ("empty clickhouse->embedded_backup_disk and invalid "
        +:+ "general->remote_storage: " +:+ Receiver.RemoteStorage r)))).
Proof.
  intros Hdisk Hs3 Hgcs Haz. unfold BackuperMore.getEmbeddedBackupLocation.
  rewrite Hdisk, bool_decide_eq_false_2 by (intros H; apply H; reflexivity).
  rewrite (applyMacros_unsupported r Hs3 Hgcs Haz).
  rewrite !bool_decide_eq_false_2 by assumption. reflexivity.
Qed.

(** X22.  When the expansion of the sub-path fails, the method returns
    that error before any URL is built, and the configured sub-path of the
    provider in use has already been replaced by what [ApplyMacros]
    returned with its error. *)
Theorem getEmbeddedBackupLocation_macro_error (r : Receiver.t)
  (backupName path : string) (err : error) :
  ClickHouseConfig.EmbeddedBackupDisk (Receiver.ClickHouse r) = "" ->
  getObjectDiskPath r = Ok path ->
  (ApplyMacros path).2 = Some err ->
  (location r backupName).2 = Some (Err err)
  /\ getObjectDiskPath (location r backupName).1 = Ok (ApplyMacros path).1.
Proof.
  intros Hdisk Hpath Herr. unfold BackuperMore.getEmbeddedBackupLocation.
  rewrite Hdisk, bool_decide_eq_false_2 by (intros H; apply H; reflexivity).
  destruct (applyMacros_rewrites r path Hpath) as [Hget Hsnd].
  rewrite Herr in Hsnd.
  destruct (applyMacros r) as [r' e]. simpl in *. subst e.
  split; [reflexivity | exact Hget].
Qed.

(** X23.  GCS without an endpoint: the host is [storage.googleapis.com],
    the scheme "http" under [ForceHttp] and "https" otherwise, the path
    bucket and sub-path joined. *)
Theorem buildEmbeddedLocationGCS_default_host (r : Receiver.t) :
  GCSConfig.Endpoint (Receiver.GCS r) = "" ->
  gcsurl r
  = Some (URL.mk (if GCSConfig.ForceHttp (Receiver.GCS r) then "http"
                  else "https")
                 "" "storage.googleapis.com"
                 (path_Join [GCSConfig.Bucket (Receiver.GCS r);
                             GCSConfig.ObjectDiskPath (Receiver.GCS r)])
                 "" "" "").
Proof.
  intros Hendpoint. unfold buildEmbeddedLocationGCS_url.
  rewrite Hendpoint. cbn -[String.append].
  destruct (GCSConfig.ForceHttp (Receiver.GCS r)); reflexivity.
Qed.

End EmbeddedFacts.

(** ** [initDisksPathdsAndBackupDestination] *)

Section InitFacts.
Import Backuper BackuperMore BackuperInit InitWords.
Variable GetDisks : orError (list Disk.t).
Variable GetDefaultPath : list Disk.t -> string * option error.
Variable NewBackupDestination :
  Receiver.t -> string -> orError BackupDestination.t.
Variable Connect : BackupDestination.t -> option error.
Variable Kind : BackupDestination.t -> string.
Variable ErrUnknownClickhouseDataPath : error.

Local Abbreviation init :=
  (initDisksPathdsAndBackupDestination GetDisks GetDefaultPath
     NewBackupDestination Connect Kind ErrUnknownClickhouseDataPath).

Lemma diskLoop_snoc r disks disk st :
  diskLoop r (disks ++ [disk]) st
  = (<[Disk.Name disk := Disk.Path disk]> (diskLoop r disks st).1,
     if holdsEmbedded r disk then Disk.Path disk
     else (diskLoop r disks st).2).
Proof.
  unfold diskLoop. rewrite fold_left_app. simpl.
  destruct (fold_left _ disks st). reflexivity.
Qed.

Lemma diskLoop_map r disks m e name :
  (diskLoop r disks (m, e)).1 !! name
  = match last (named name disks) with
    | Some d => Some (Disk.Path d)
    | None => m !! name
    end.
Proof.
  induction disks as [| disk disks IH] using rev_ind; [reflexivity |].
  rewrite diskLoop_snoc. unfold named in *.
  rewrite filter_app, filter_cons, filter_nil. cbn [fst].
  destruct (decide (Disk.Name disk = name)) as [Hn | Hn].
  - rewrite last_snoc, Hn. apply lookup_insert_eq.
  - rewrite app_nil_r, lookup_insert_ne by exact Hn. exact IH.
Qed.

Lemma diskLoop_embedded r disks m e :
  (diskLoop r disks (m, e)).2
  = from_option Disk.Path e (last (embeddedDisks r disks)).
Proof.
  induction disks as [| disk disks IH] using rev_ind; [reflexivity |].
  rewrite diskLoop_snoc. unfold embeddedDisks in *.
  rewrite filter_app, filter_cons, filter_nil. cbn [snd].
  destruct (holdsEmbedded r disk) eqn:Hh.
  - rewrite decide_True by reflexivity. rewrite last_snoc. reflexivity.
  - rewrite decide_False by discriminate. rewrite app_nil_r. exact IH.
Qed.

(** The fields the method leaves once the default path is known. *)
Lemma init_after_loop r p disks backupName defaultPath :
  GetDefaultPath disks = (defaultPath, None) ->
  let after := (init r p (Some disks) backupName).1 in
  Paths.DefaultDataPath after = defaultPath
  /\ Paths.DiskToPathMap after = (diskLoop r disks (∅, Paths.EmbeddedBackupDataPath p)).1
  /\ Paths.EmbeddedBackupDataPath after
     = (let embedded :=
          (diskLoop r disks (∅, Paths.EmbeddedBackupDataPath p)).2 in
        if ClickHouseConfig.UseEmbeddedBackupRestore (Receiver.ClickHouse r)
           && bool_decide (embedded = "")
        then defaultPath else embedded).
Proof.
  intros Hpath. unfold initDisksPathdsAndBackupDestination.
  rewrite Hpath. cbn [Paths.setDefaultDataPath Paths.DefaultDataPath
                      Paths.EmbeddedBackupDataPath].
  destruct (diskLoop r disks (∅, Paths.EmbeddedBackupDataPath p))
    as [diskMap embedded].
  destruct (_ && bool_decide (Receiver.RemoteStorage r <> "custom"));
    [| repeat split].
  destruct (NewBackupDestination r backupName) as [d | err];
    [| repeat split].
  destruct (Connect d); repeat split.
Qed.

(** X25.  Once the default data path is known, [DiskToPathMap] is built
    anew from the disks alone: a name is mapped to the path of the last
    disk of the list that bears it, a name that no disk bears is not in
    the map, and nothing of the former map is kept; this holds also when
    the destination then fails to be made or to connect. *)
Theorem initDisks_disk_map r p disks backupName defaultPath name :
  GetDefaultPath disks = (defaultPath, None) ->
  Paths.DiskToPathMap (init r p (Some disks) backupName).1 !! name
  = Disk.Path <$> last (named name disks).
Proof.
  intros Hpath.
  destruct (init_after_loop r p disks backupName defaultPath Hpath)
    as (_ & Hmap & _).
  rewrite Hmap, diskLoop_map, lookup_empty.
  destruct (last (named name disks)); reflexivity.
Qed.

Lemma embeddedDisks_off r disks :
  ClickHouseConfig.UseEmbeddedBackupRestore (Receiver.ClickHouse r) = false ->
  embeddedDisks r disks = [].
Proof.
  intros Huse. unfold embeddedDisks.
  induction disks as [| d ds IH]; [reflexivity |].
  assert (Hd : holdsEmbedded r d = false)
    by (unfold holdsEmbedded; rewrite Huse; reflexivity).
  rewrite filter_cons, decide_False by (rewrite Hd; discriminate).
  exact IH.
Qed.

(** X26.  The embedded backup data path: without
    [UseEmbeddedBackupRestore] it is left as it was; with it, it is the
    path of the last disk that is a backup disk or bears the configured
    name (the former value when there is none), and the default data path
    when that is empty. *)
Theorem initDisks_embedded_path r p disks backupName defaultPath :
  GetDefaultPath disks = (defaultPath, None) ->
  Paths.EmbeddedBackupDataPath (init r p (Some disks) backupName).1
  = if ClickHouseConfig.UseEmbeddedBackupRestore (Receiver.ClickHouse r)
    then
      let embedded :=
        from_option Disk.Path (Paths.EmbeddedBackupDataPath p)
                    (last (embeddedDisks r disks)) in
      if bool_decide (embedded = "") then defaultPath else embedded
    else Paths.EmbeddedBackupDataPath p.
Proof.
  intros Hpath.
  destruct (init_after_loop r p disks backupName defaultPath Hpath)
    as (_ & _ & Hemb).
  rewrite Hemb, diskLoop_embedded. cbn zeta.
  destruct (ClickHouseConfig.UseEmbeddedBackupRestore (Receiver.ClickHouse r))
    eqn:Huse; cbn [andb]; [reflexivity |].
  rewrite (embeddedDisks_off r disks Huse). reflexivity.
Qed.

(** X27.  With the remote storage "none" or "custom" no destination is
    made and none is connected to: once the default data path is known the
    method returns nil and leaves [dst] as it was. *)
Theorem initDisks_no_remote r p disks backupName defaultPath :
  Receiver.RemoteStorage r = "none" \/ Receiver.RemoteStorage r = "custom" ->
  GetDefaultPath disks = (defaultPath, None) ->
  (init r p (Some disks) backupName).2 = None
  /\ Paths.dst (init r p (Some disks) backupName).1 = Paths.dst p.
Proof.
  intros Hremote Hpath. unfold initDisksPathdsAndBackupDestination.
  rewrite Hpath.
  destruct (diskLoop r disks _) as [diskMap embedded].
  assert (Hguard : bool_decide (Receiver.RemoteStorage r <> "none")
                   && bool_decide (Receiver.RemoteStorage r <> "custom")
                   = false).
  { destruct Hremote as [-> | ->]; reflexivity. }
  rewrite Hguard. split; reflexivity.
Qed.
End InitFacts.

(** ** The older [Upload]: what its trace holds *)

Section TraceRules.
Import Legacy Traces.
Context {A B : Type}.
Variable P : event -> Prop.

Lemma emits_ret (a : A) : emits P (mret a).
Proof. intros tr. exists []. rewrite app_nil_r. split; [reflexivity | constructor]. Qed.

Lemma emits_return (err : option error) : emits P (@return_ A err).
Proof. intros tr. exists []. rewrite app_nil_r. split; [reflexivity | constructor]. Qed.

Lemma emits_panic : emits P (@panic A).
Proof. intros tr. exists []. rewrite app_nil_r. split; [reflexivity | constructor]. Qed.

Lemma emits_emit (ev : event) : P ev -> emits P (emit ev).
Proof.
  intros Hev tr. exists [ev]. split; [reflexivity | repeat constructor; exact Hev].
Qed.

Lemma emits_bind (m : M A) (f : A -> M B) :
  emits P m -> (forall a, emits P (f a)) -> emits P (m ≫= f).
Proof.
  intros Hm Hf tr. unfold mbind, M_bind.
  destruct (Hm tr) as (tr1 & Htr1 & HP1).
  destruct (m tr) as [[a | err |] tr'] eqn:Hrun; simpl in Htr1; subst tr'.
  - destruct (Hf a (tr ++ tr1)) as (tr2 & Htr2 & HP2).
    exists (tr1 ++ tr2). rewrite Htr2, app_assoc.
    split; [reflexivity | apply Forall_app; split; assumption].
  - exists tr1. split; [reflexivity | exact HP1].
  - exists tr1. split; [reflexivity | exact HP1].
Qed.

Lemma emits_defer (ev : event) (m : M A) :
  P ev -> emits P m -> emits P (defer ev m).
Proof.
  intros Hev Hm tr. unfold defer.
  destruct (Hm tr) as (tr1 & Htr1 & HP1).
  destruct (m tr) as [o tr']. simpl in Htr1. subst tr'.
  exists (tr1 ++ [ev]). rewrite app_assoc. split; [reflexivity |].
  apply Forall_app. split; [exact HP1 | repeat constructor; exact Hev].
Qed.
End TraceRules.

Section TraceLoops.
Import Legacy Traces.
Context {A B : Type}.
Variable P : event -> Prop.

Lemma emits_check (err : option error) (wrap : error -> error) :
  emits P (check err wrap).
Proof. destruct err; [apply emits_return | apply emits_ret]. Qed.

Lemma emits_try (r : orError A) (wrap : error -> error) :
  emits P (try r wrap).
Proof. destruct r; [apply emits_ret | apply emits_return]. Qed.

Lemma emits_forM (l : list A) (body : B -> A -> M B) (b : B) :
  (forall b x, emits P (body b x)) -> emits P (forM l body b).
Proof.
  intros Hbody. revert b. induction l as [| x l IH]; intros b; simpl.
  - apply emits_ret.
  - apply emits_bind; [apply Hbody | intros b'; apply IH].
Qed.

Lemma emits_forMi (i : Z) (l : list A) (body : B -> Z -> A -> M B) (b : B) :
  (forall b i x, emits P (body b i x)) -> emits P (forMi i l body b).
Proof.
  intros Hbody. revert i b. induction l as [| x l IH]; intros i b; simpl.
  - apply emits_ret.
  - apply emits_bind; [apply Hbody | intros b'; apply IH].
Qed.
End TraceLoops.

(** One step of a proof that a piece of [Upload] emits only events of a
    kind: the rule of the head construct, the side condition on an emitted
    event left to [tac]. *)
Ltac emits_step tac :=
  lazymatch goal with
  | |- Traces.emits _ (mbind _ _) => apply emits_bind; [| intros ?]
  | |- Traces.emits _ (Legacy.emit _) => apply emits_emit; tac
  | |- Traces.emits _ (Legacy.check _ _) => apply emits_check
  | |- Traces.emits _ (Legacy.try _ _) => apply emits_try
  | |- Traces.emits _ (Legacy.return_ _) => apply emits_return
  | |- Traces.emits _ Legacy.panic => apply emits_panic
  | |- Traces.emits _ (mret _) => apply emits_ret
  | |- Traces.emits _ (Legacy.forM _ _ _) => apply emits_forM; intros ? ?
  | |- Traces.emits _ (Legacy.forMi _ _ _ _) =>
      apply emits_forMi; intros ? ? ?
  | |- Traces.emits _ (if ?c then _ else _) => destruct c
  | |- Traces.emits _ (match ?x with _ => _ end) => destruct x
  end.

Section UploadTraces.
Import Legacy Traces.
Variable path_Join : list string -> string.
Variable filepath_Join : string -> string -> string.
Variable fs : string -> node.
Variable ch : ClickHouse.
Variable NewBackupDestination : Config -> orError BackupDestination.
Variable GetLocalBackup : Config -> string -> option error.
Variable os_Stat : string -> option error.
Variable parseSchemaPattern :
  string -> string -> list TableMetadata * option error.
Variable TablePathEncode : string -> string.
Variable GetArchiveExtension : Config -> string.
Variable json_MarshalIndent : TableMetadata -> orError string.
Variable ioutil_ReadFile : string -> orError string.
Variable ErrUnknownClickhouseDataPath : error.

Local Abbreviation Upload :=
  (Upload path_Join filepath_Join fs ch NewBackupDestination GetLocalBackup
          os_Stat parseSchemaPattern TablePathEncode GetArchiveExtension
          json_MarshalIndent ioutil_ReadFile ErrUnknownClickhouseDataPath).
Local Abbreviation Upload_connected :=
  (Upload_connected path_Join filepath_Join fs ch NewBackupDestination
     GetLocalBackup os_Stat parseSchemaPattern TablePathEncode
     GetArchiveExtension json_MarshalIndent ioutil_ReadFile
     ErrUnknownClickhouseDataPath).
Local Abbreviation uploadTable :=
  (uploadTable path_Join filepath_Join fs TablePathEncode GetArchiveExtension
               json_MarshalIndent).
Local Abbreviation uploadDisks :=
  (uploadDisks path_Join filepath_Join fs TablePathEncode GetArchiveExtension).
Local Abbreviation uploadBatches :=
  (uploadBatches path_Join TablePathEncode GetArchiveExtension).

Lemma uploadDisks_no_connection cfg bd backupName diskMap table uuid :
  emits (fun ev => ~ connection ev)
        (uploadDisks cfg bd backupName diskMap table uuid).
Proof.
  unfold Legacy.uploadDisks, Legacy.uploadBatches.
  apply emits_forM. intros m [disk diskParts].
  repeat emits_step ltac:(simpl; tauto).
Qed.

Lemma uploadTable_no_connection cfg bd backupName schemaOnly diskMap table :
  emits (fun ev => ~ connection ev)
        (uploadTable cfg bd backupName schemaOnly diskMap table).
Proof.
  unfold Legacy.uploadTable.
  apply emits_bind; [repeat emits_step ltac:(simpl; tauto) | intros uuid].
  apply emits_bind.
  - destruct (negb schemaOnly); [apply uploadDisks_no_connection |].
    apply emits_ret.
  - intros m. repeat emits_step ltac:(simpl; tauto).
Qed.

Lemma Upload_connected_no_connection cfg backupName tablePattern schemaOnly :
  emits (fun ev => ~ connection ev)
        (Upload_connected cfg backupName tablePattern schemaOnly).
Proof.
  unfold Legacy.Upload_connected.
  repeat (first [apply uploadTable_no_connection
                | emits_step ltac:(simpl; tauto)]).
Qed.
End UploadTraces.

Section UploadOrder.
Import Legacy Traces.
Variable path_Join : list string -> string.
Variable filepath_Join : string -> string -> string.
Variable fs : string -> node.
Variable ch : ClickHouse.
Variable NewBackupDestination : Config -> orError BackupDestination.
Variable GetLocalBackup : Config -> string -> option error.
Variable os_Stat : string -> option error.
Variable parseSchemaPattern :
  string -> string -> list TableMetadata * option error.
Variable TablePathEncode : string -> string.
Variable GetArchiveExtension : Config -> string.
Variable json_MarshalIndent : TableMetadata -> orError string.
Variable ioutil_ReadFile : string -> orError string.
Variable ErrUnknownClickhouseDataPath : error.

Local Abbreviation Upload :=
  (Upload path_Join filepath_Join fs ch NewBackupDestination GetLocalBackup
          os_Stat parseSchemaPattern TablePathEncode GetArchiveExtension
          json_MarshalIndent ioutil_ReadFile ErrUnknownClickhouseDataPath).
Local Abbreviation Upload_connected :=
  (Upload_connected path_Join filepath_Join fs ch NewBackupDestination
     GetLocalBackup os_Stat parseSchemaPattern TablePathEncode
     GetArchiveExtension json_MarshalIndent ioutil_ReadFile
     ErrUnknownClickhouseDataPath).
Local Abbreviation uploadTable :=
  (uploadTable path_Join filepath_Join fs TablePathEncode GetArchiveExtension
               json_MarshalIndent).
Local Abbreviation uploadBatches :=
  (uploadBatches path_Join TablePathEncode GetArchiveExtension).

(** X28.  The connection to the database is closed once, as the last thing the
    function does, whatever comes after the connection: an error, a panic
    or the end of the upload.  When the connection fails nothing is closed
    and nothing else is called. *)
Theorem Upload_closes_connection (cfg : Config)
  (backupName tablePattern : string) (schemaOnly : bool) :
  RemoteStorage (General cfg) <> "none" -> backupName <> "" ->
  match Connect ch with
  | Some err =>
      Upload cfg backupName tablePattern "" schemaOnly []
      = (Return (Some (Errorf ("can't connect to clickhouse: "
                               +:+ Error err))),
         [EvChConnect])
  | None =>
      exists body,
        (Upload cfg backupName tablePattern "" schemaOnly []).2
        = EvChConnect :: body ++ [EvChClose]
        /\ Forall (fun ev => ~ connection ev) body
  end.
Proof.
  intros Hremote Hname. unfold Legacy.Upload.
  rewrite (bool_decide_eq_false_2 _ Hremote),
    (bool_decide_eq_false_2 _ Hname).
  rewrite bool_decide_eq_false_2 by (intros H; apply H; reflexivity).
  destruct (Connect ch) as [err |]; [reflexivity |].
  destruct (Upload_connected_no_connection path_Join filepath_Join fs ch
              NewBackupDestination GetLocalBackup os_Stat parseSchemaPattern
              TablePathEncode GetArchiveExtension json_MarshalIndent
              ioutil_ReadFile ErrUnknownClickhouseDataPath cfg backupName
              tablePattern schemaOnly [EvChConnect]) as (body & Hbody & HP).
  exists body. split; [| exact HP].
  unfold mbind, M_bind, emit, check, mret, M_ret, defer. cbn [app].
  destruct (Upload_connected cfg backupName tablePattern schemaOnly
              [EvChConnect]) as [o tr].
  simpl in Hbody. subst tr. reflexivity.
Qed.

Lemma uploadTable_schemaOnly cfg bd backupName diskMap table :
  emits (fun ev => ~ movesData ev)
        (uploadTable cfg bd backupName true diskMap table).
Proof.
  unfold Legacy.uploadTable. cbn [negb].
  repeat emits_step ltac:(simpl; tauto).
Qed.

(** X29.  With [schemaOnly] no part directory is walked and no data archive is
    sent, whatever the tables hold: the function puts metadata only. *)
Theorem Upload_schemaOnly_moves_no_data (cfg : Config)
  (backupName tablePattern diffFrom : string) :
  Forall (fun ev => ~ movesData ev)
         (Upload cfg backupName tablePattern diffFrom true []).2.
Proof.
  assert (H : emits (fun ev => ~ movesData ev)
                (Upload cfg backupName tablePattern diffFrom true)).
  { unfold Legacy.Upload.
    repeat emits_step ltac:(simpl; tauto).
    apply emits_defer; [simpl; tauto |].
    unfold Legacy.Upload_connected.
    repeat (first [apply uploadTable_schemaOnly
                  | emits_step ltac:(simpl; tauto)]). }
  destruct (H []) as (tr & Htr & HP). rewrite Htr. exact HP.
Qed.

Lemma archiveNames_length disk ext i parts :
  length (archiveNames disk ext i parts) = length parts.
Proof.
  revert i. induction parts as [| p parts IH]; intros i; simpl;
    [reflexivity | rewrite IH; reflexivity].
Qed.

Lemma forMi_names cfg bd backupName table disk backupPath parts :
  forall i (m m' : gmap string (list string)) tr tr',
    forMi i parts
      (fun metdataFiles i p =>
         let fileName :=
           disk +:+ "_" +:+ itoa (i + 1) +:+ "." +:+ GetArchiveExtension cfg in
         let metdataFiles :=
           <[disk := default [] (metdataFiles !! disk) ++ [fileName]]>
             metdataFiles in
         let remoteDataFile :=
           path_Join [backupName; "shadow"; TablePathEncode (Database table);
                      TablePathEncode (Table table); fileName] in
         emit (EvCompressedStreamUpload backupPath p remoteDataFile);;
         check (CompressedStreamUpload bd backupPath p remoteDataFile)
               (fun err => Errorf ("can't upload: " +:+ Error err));;
         mret metdataFiles) m tr = (Next m', tr') ->
    m' = match parts with
         | [] => m
         | _ :: _ =>
             <[disk := default [] (m !! disk)
                       ++ archiveNames disk (GetArchiveExtension cfg) i parts]>
               m
         end.
Proof.
  induction parts as [| p parts IH]; intros i m m' tr tr'.
  - simpl. intros [= <- _]. reflexivity.
  - cbn [forMi]. unfold mbind at 1, M_bind at 1.
    match goal with
    | |- context [match ?body ?t with _ => _ end] =>
        destruct (body t) as [[m1 | err |] tr1] eqn:Hbody
    end; try discriminate.
    intros Hrest. apply IH in Hrest. subst m'.
    assert (Hm1 : m1 = <[disk := default [] (m !! disk)
                          ++ [disk +:+ "_" +:+ itoa (i + 1) +:+ "."
                              +:+ GetArchiveExtension cfg]]> m).
    { revert Hbody. unfold mbind, M_bind, emit, check, mret, M_ret.
      destruct (CompressedStreamUpload bd _ _ _); [discriminate |].
      intros [= <- _]. reflexivity. }
    subst m1. cbn [archiveNames].
    destruct parts as [| p' parts]; [reflexivity |].
    rewrite lookup_insert_eq, insert_insert_eq. unfold default at 1, id.
    rewrite <- app_assoc. reflexivity.
Qed.

(** X30.  When every batch of a disk is sent, the [Files] entry of the disk is
    what it was followed by one archive name per batch,
    [<disk>_<n>.<extension>] with [n] counting from 1 in the order of the
    batches; the entries of the other disks are left alone. *)
Theorem uploadBatches_names cfg bd backupName table disk backupPath
  (part : list string) (parts : list (list string))
  (m m' : gmap string (list string)) tr tr' :
  uploadBatches cfg bd backupName table disk backupPath (part :: parts) m tr
  = (Next m', tr') ->
  m' = <[disk := default [] (m !! disk)
                 ++ archiveNames disk (GetArchiveExtension cfg) 0
                      (part :: parts)]> m
  /\ length (archiveNames disk (GetArchiveExtension cfg) 0 (part :: parts))
     = length (part :: parts).
Proof.
  intros Hrun. split; [| apply archiveNames_length].
  apply (forMi_names cfg bd backupName table disk backupPath (part :: parts)
           0 m m' tr tr').
  exact Hrun.
Qed.
End UploadOrder.

(** ** The properties above on concrete inputs *)

Lemma applyMacros_then_getObjectDiskPath_witness :
  BackuperMore.getObjectDiskPath
    (BackuperMore.applyMacrosToObjectDiskPath MoreExamples.macros_ex
       (MoreExamples.receiver_ex "s3")).1
  = Ok "01/disks"
  /\ (BackuperMore.applyMacrosToObjectDiskPath MoreExamples.macros_ex
        (MoreExamples.receiver_ex "s3")).2
     = None.
Proof.
  apply (applyMacros_then_getObjectDiskPath MoreExamples.macros_ex
           (MoreExamples.receiver_ex "s3") "{shard}/disks").
  reflexivity.
Defined.

Lemma getEmbeddedBackupLocation_unsupported_witness :
  BackuperMore.getEmbeddedBackupLocation Batching.join_slash
    Locating.never_parses Locating.render MoreExamples.macros_ex
    MoreExamples.no_env (MoreExamples.receiver_ex "ftp") "daily"
  = (MoreExamples.receiver_ex "ftp",
     Some (Err (Errorf
       ("empty clickhouse->embedded_backup_disk and invalid "
        +:+ "general->remote_storage: ftp")))).
Proof.
  apply (getEmbeddedBackupLocation_unsupported Batching.join_slash
           Locating.never_parses Locating.render MoreExamples.macros_ex
           MoreExamples.no_env (MoreExamples.receiver_ex "ftp") "daily");
    [reflexivity | discriminate | discriminate | discriminate].
Defined.

Lemma getEmbeddedBackupLocation_macro_error_witness :
  (BackuperMore.getEmbeddedBackupLocation Batching.join_slash
     Locating.never_parses Locating.render MoreExamples.macros_fail
     MoreExamples.no_env (MoreExamples.receiver_ex "gcs") "daily").2
  = Some (Err (Errorf "can't get macros from system.macros"))
  /\ BackuperMore.getObjectDiskPath
       (BackuperMore.getEmbeddedBackupLocation Batching.join_slash
          Locating.never_parses Locating.render MoreExamples.macros_fail
          MoreExamples.no_env (MoreExamples.receiver_ex "gcs") "daily").1
     = Ok "".
Proof.
  apply (getEmbeddedBackupLocation_macro_error Batching.join_slash
           Locating.never_parses Locating.render MoreExamples.macros_fail
           MoreExamples.no_env (MoreExamples.receiver_ex "gcs") "daily"
           "{shard}/disks"); reflexivity.
Defined.

Lemma buildEmbeddedLocationGCS_default_host_witness :
  BackuperMore.buildEmbeddedLocationGCS_url Batching.join_slash
    Locating.never_parses (MoreExamples.receiver_gcs "" true)
  = Some (Backuper.URL.mk "http" "" "storage.googleapis.com" "gbucket/disks"
            "" "" "").
Proof.
  apply (buildEmbeddedLocationGCS_default_host Batching.join_slash
           Locating.never_parses (MoreExamples.receiver_gcs "" true)).
  reflexivity.
Defined.


Lemma initDisks_disk_map_witness :
  BackuperInit.Paths.DiskToPathMap (MoreExamples.init_ex "s3").1 !! "backups"
  = Some "/mnt/backups2/".
Proof.
  apply (initDisks_disk_map (Err (Errorf "no connection"))
           MoreExamples.defaultPath_ex (fun _ _ => Ok Diffing.dst_ex)
           (fun _ => None) (fun _ => "s3")
           (Errorf "clickhouse data path is unknown")
           (MoreExamples.receiver_ex "s3") MoreExamples.paths_zero
           MoreExamples.disks_ex "daily" "/var/lib/clickhouse" "backups").
  reflexivity.
Defined.

Lemma initDisks_embedded_path_witness :
  BackuperInit.Paths.EmbeddedBackupDataPath (MoreExamples.init_ex "s3").1
  = "/mnt/backups2/".
Proof.
  apply (initDisks_embedded_path (Err (Errorf "no connection"))
           MoreExamples.defaultPath_ex (fun _ _ => Ok Diffing.dst_ex)
           (fun _ => None) (fun _ => "s3")
           (Errorf "clickhouse data path is unknown")
           (MoreExamples.receiver_ex "s3") MoreExamples.paths_zero
           MoreExamples.disks_ex "daily" "/var/lib/clickhouse").
  reflexivity.
Defined.

Lemma initDisks_no_remote_witness :
  (MoreExamples.init_ex "custom").2 = None
  /\ BackuperInit.Paths.dst (MoreExamples.init_ex "custom").1 = None.
Proof.
  apply (initDisks_no_remote (Err (Errorf "no connection"))
           MoreExamples.defaultPath_ex (fun _ _ => Ok Diffing.dst_ex)
           (fun _ => None) (fun _ => "custom")
           (Errorf "clickhouse data path is unknown")
           (MoreExamples.receiver_ex "custom") MoreExamples.paths_zero
           MoreExamples.disks_ex "daily" "/var/lib/clickhouse").
  - right. reflexivity.
  - reflexivity.
Defined.

Lemma Upload_closes_connection_witness :
  exists body,
    (Traces.UploadTables Traces.ch_data [Traces.table_ex "ab"] false).2
    = Legacy.EvChConnect :: body ++ [Legacy.EvChClose]
    /\ Forall (fun ev => ~ Traces.connection ev) body.
Proof.
  apply (Upload_closes_connection Batching.join_slash Batching.join2_slash
           Traces.fs_shadow Traces.ch_data (fun _ => Ok Uploading.bd_ok)
           (fun _ _ => None) (fun _ => None)
           (fun _ _ => ([Traces.table_ex "ab"], None)) id (fun _ => "tar")
           (fun _ => Ok "{}") (fun _ => Ok "{}")
           (Errorf "clickhouse data path is unknown")
           (Legacy.mkConfig (Legacy.mkGeneral "s3" 15)) "daily" "" false);
    discriminate.
Defined.

Lemma uploadBatches_names_witness :
  ({[ "default" := ["default_1.tar"; "default_2.tar"] ]}
     : gmap string (list string))
  = <["default" := default [] ((∅ : gmap string (list string)) !! "default")
                   ++ Traces.archiveNames "default" "tar" 0
                        [["/p/a"; "/p/c"]; ["/p/d"]]]> ∅
  /\ length (Traces.archiveNames "default" "tar" 0
               [["/p/a"; "/p/c"]; ["/p/d"]])
     = length [["/p/a"; "/p/c"]; ["/p/d"]].
Proof.
  eapply (uploadBatches_names Batching.join_slash id (fun _ => "tar")
           (Legacy.mkConfig (Legacy.mkGeneral "s3" 15)) Uploading.bd_ok
           "daily" (Traces.table_ex "") "default"
           "/data/backup/daily/shadow/db/t" ["/p/a"; "/p/c"] [["/p/d"]]
           ∅ _ [] _).
  reflexivity.
Defined.
